(** * Seoul air-quality dashboard (app.py): loader, filter, aggregates, grades

    A shallow embedding of the data pipeline of [app.py]:

      load_data  ->  filtered_data  ->  latest_data / district_avg /
                                        monthly_trend / hourly_pattern /
                                        summary_stats
      get_air_quality_grade, get_grade_color

    and of what the page builds around it: the year options of the
    sidebar, the list of favourite districts, the status block of the first
    tab, the markers of the map and the date range of the fourth tab.
    Charts, the CSV download and the memo pad (which reads the clock) are
    left out, and so is the list of district options (line 110), whose
    [sorted] raises TypeError on a table with a blank 구분 cell: a 구분 cell
    is a string here.

    Modelling conventions.

    - A pandas DataFrame is the list of its rows, in index order; a column is
      a field of the row record.  The columns of the unified table are
      일시 ([timestamp]), 구분 ([district]), PM10 ([pm10]), PM25 ([pm25]) and
      the derived 연도 ([year]), 월 ([month]), 일 ([day]), 시간 ([hour]).
    - A float64 cell is [NaN] (the missing-value marker) or [Num q], the
      rational that a finite reading denotes.  Arithmetic on readings is
      exact: rounding error, overflow and infinities of binary floating
      point are outside the model.  Comparisons of floats are exact in
      IEEE-754, so the grade cascade is modelled without loss on finite input.
      For that reason the general statements say of a mean only that it is
      the arithmetic mean of its readings: they do not compare a mean with
      single readings, with a threshold of the grades, or with the mean
      that another pandas call computes from the same readings.
    - A datetime64 cell is [NaT] or [TS t] with [t] a calendar record;
      instants are ordered lexicographically on their components.
    - Code that can raise (positional indexing with [.iloc[0]], tuple
      indexing) lives in an exception monad [M]; every other pandas call used
      by the program returns a value on all frames of this schema.
    - The file system and [pd.to_datetime] are parameters of the loader.  *)

From Stdlib Require Import ZArith QArith Qround Qabs List String Bool Lia Lqa.
From Stdlib Require Import Permutation Sorted RelationClasses Morphisms.
Import ListNotations.

Set Implicit Arguments.

(* ================================================================== *)
(** ** Cells *)

(** A float64 cell.  [pd.isna] is true exactly on [NaN]. *)
Inductive value : Type :=
| NaN
| Num (q : Q).

Definition isna (v : value) : bool :=
  match v with NaN => true | Num _ => false end.

(** [value <= n] for an integer literal [n]: false on NaN, as in Python. *)
Definition le_int (v : value) (n : Z) : bool :=
  match v with
  | NaN => false
  | Num q => Qle_bool q (inject_Z n)
  end.

(** [a == b] on float cells: NaN is equal to nothing, itself included. *)
Definition value_eqb (a b : value) : bool :=
  match a, b with
  | Num x, Num y => Qeq_bool x y
  | _, _ => false
  end.

(** Equality of cells up to the representation of the rational. *)
Definition same_value (a b : value) : Prop :=
  match a, b with
  | NaN, NaN => True
  | Num x, Num y => (x == y)%Q
  | _, _ => False
  end.

(* ================================================================== *)
(** ** Grades (app.py, lines 62-88) *)

Module Grade.

Open Scope string_scope.

(** The five labels returned by [get_air_quality_grade]. *)
Definition Good : string := "좋음".
Definition Moderate : string := "보통".
Definition Bad : string := "나쁨".
Definition VeryBad : string := "매우나쁨".
Definition NoData : string := "데이터없음".

(** def get_air_quality_grade(value, pollutant='PM10') *)
Definition get_air_quality_grade (value : value) (pollutant : string) : string :=
  if isna value then NoData
  else if String.eqb pollutant "PM10" then
    if le_int value 30 then Good
    else if le_int value 80 then Moderate
    else if le_int value 150 then Bad
    else VeryBad
  else
    if le_int value 15 then Good
    else if le_int value 35 then Moderate
    else if le_int value 75 then Bad
    else VeryBad.

(** def get_grade_color(grade): a dict lookup with a default. *)
Definition grade_colors : list (string * string) :=
  [ (Good, "#0066cc"); (Moderate, "#00cc00"); (Bad, "#ff9900");
    (VeryBad, "#ff0000"); (NoData, "#808080") ].

Fixpoint dict_get (d : list (string * string)) (k dflt : string) : string :=
  match d with
  | [] => dflt
  | (k', v) :: d' => if String.eqb k k' then v else dict_get d' k dflt
  end.

Definition get_grade_color (grade : string) : string :=
  dict_get grade_colors grade "#808080".

(** Severity rank of the four concentration grades; the no-data label (and
    any other string) has none. *)
Definition severity (grade : string) : option nat :=
  if String.eqb grade Good then Some 0%nat
  else if String.eqb grade Moderate then Some 1%nat
  else if String.eqb grade Bad then Some 2%nat
  else if String.eqb grade VeryBad then Some 3%nat
  else None.

(** The threshold table of one pollutant, read as a function of the value. *)
Definition classify (t1 t2 t3 : Z) (q : Q) : string :=
  if Qle_bool q (inject_Z t1) then Good
  else if Qle_bool q (inject_Z t2) then Moderate
  else if Qle_bool q (inject_Z t3) then Bad
  else VeryBad.

(** How grades compare: both are severity grades and the first is not the
    more severe one. *)
Definition no_more_severe (g1 g2 : string) : Prop :=
  match severity g1, severity g2 with
  | Some s1, Some s2 => (s1 <= s2)%nat
  | _, _ => False
  end.

End Grade.

(* ================================================================== *)
(** ** Timestamps *)

(** The calendar components of a datetime64 instant; [dt_subsecond] is the
    part below one second, in nanoseconds. *)
Record datetime : Type := mkdatetime {
  dt_year : Z;
  dt_month : Z;
  dt_day : Z;
  dt_hour : Z;
  dt_minute : Z;
  dt_second : Z;
  dt_subsecond : Z
}.

(** A calendar date, the result of [.date()] / [.dt.date]. *)
Record date : Type := mkdate {
  d_year : Z;
  d_month : Z;
  d_day : Z
}.

Fixpoint lex_compare (a b : list Z) : comparison :=
  match a, b with
  | [], [] => Eq
  | [], _ :: _ => Lt
  | _ :: _, [] => Gt
  | x :: a', y :: b' =>
      match Z.compare x y with
      | Eq => lex_compare a' b'
      | c => c
      end
  end.

Definition dt_key (t : datetime) : list Z :=
  [dt_year t; dt_month t; dt_day t; dt_hour t; dt_minute t; dt_second t;
   dt_subsecond t].

Definition dt_compare (a b : datetime) : comparison :=
  lex_compare (dt_key a) (dt_key b).

Definition dt_leb (a b : datetime) : bool :=
  match dt_compare a b with Gt => false | _ => true end.

Definition dt_eqb (a b : datetime) : bool :=
  match dt_compare a b with Eq => true | _ => false end.

Definition dt_date (t : datetime) : date :=
  mkdate (dt_year t) (dt_month t) (dt_day t).

Definition date_leb (a b : date) : bool :=
  match lex_compare [d_year a; d_month a; d_day a]
                    [d_year b; d_month b; d_day b] with
  | Gt => false
  | _ => true
  end.

(** A datetime64 cell: [NaT] is what [errors='coerce'] leaves for a text
    that does not parse. *)
Inductive Timestamp : Type :=
| NaT
| TS (t : datetime).

Definition isnat (t : Timestamp) : bool :=
  match t with NaT => true | TS _ => false end.

(** [a == b] on datetime cells: NaT is equal to nothing. *)
Definition ts_eqb (a b : Timestamp) : bool :=
  match a, b with
  | TS x, TS y => dt_eqb x y
  | _, _ => false
  end.

(** The [.dt] accessors: an integer, or missing on NaT. *)
Definition ts_field (f : datetime -> Z) (t : Timestamp) : option Z :=
  match t with NaT => None | TS x => Some (f x) end.

Definition ts_date (t : Timestamp) : option date :=
  match t with NaT => None | TS x => Some (dt_date x) end.

(** [Series.max()] / [Series.min()] of a datetime column: NaT is skipped,
    and is the result when nothing else is there. *)
Definition ts_later (a b : Timestamp) : Timestamp :=
  match a, b with
  | NaT, _ => b
  | _, NaT => a
  | TS x, TS y => if dt_leb x y then TS y else TS x
  end.

Definition ts_earlier (a b : Timestamp) : Timestamp :=
  match a, b with
  | NaT, _ => b
  | _, NaT => a
  | TS x, TS y => if dt_leb x y then TS x else TS y
  end.

Definition ts_max (col : list Timestamp) : Timestamp :=
  fold_right ts_later NaT col.

Definition ts_min (col : list Timestamp) : Timestamp :=
  fold_right ts_earlier NaT col.

(* ================================================================== *)
(** ** Frames *)

(** A row of a source file as [pd.read_csv] returns it: the 일시 cell is
    still text ([None] for a blank cell). *)
Record csv_row : Type := mkcsv {
  csv_timestamp : option string;
  csv_district : string;
  csv_pm10 : value;
  csv_pm25 : value
}.

(** A row of the unified table. *)
Record row : Type := mkrow {
  timestamp : Timestamp;   (* 일시 *)
  district : string;       (* 구분 *)
  pm10 : value;            (* PM10 *)
  pm25 : value;            (* PM25 *)
  year : option Z;         (* 연도 *)
  month : option Z;        (* 월 *)
  day : option Z;          (* 일 *)
  hour : option Z          (* 시간 *)
}.

Definition DataFrame : Type := list row.

(** [df.empty] *)
Definition empty (A : Type) (df : list A) : bool :=
  match df with [] => true | _ :: _ => false end.

(** The pollutant chosen by [st.radio("오염물질", ['PM10', 'PM25'])]: it
    names a column and is passed on to the grade function as a string. *)
Inductive pollutant : Type := PM10 | PM25.

Definition pollutant_name (p : pollutant) : string :=
  match p with PM10 => "PM10"%string | PM25 => "PM25"%string end.

(** [frame[pollutant]] on one row. *)
Definition column (p : pollutant) (r : row) : value :=
  match p with PM10 => pm10 r | PM25 => pm25 r end.

(* ================================================================== *)
(** ** Exceptions *)

Inductive exn : Type := IndexError.

Inductive M (A : Type) : Type :=
| Return (a : A)
| Raise (e : exn).

Arguments Return {A} a.
Arguments Raise {A} e.

Definition bind (A B : Type) (m : M A) (k : A -> M B) : M B :=
  match m with
  | Return a => k a
  | Raise e => Raise e
  end.

Declare Scope py_scope.
Delimit Scope py_scope with py.
Notation "x <- m ;; k" := (bind m (fun x => k))
  (at level 61, m at next level, right associativity) : py_scope.

(** [s.iloc[0]] and [t[i]]: IndexError when out of range. *)
Definition iloc0 (A : Type) (s : list A) : M A :=
  match s with [] => Raise IndexError | a :: _ => Return a end.

Definition index (A : Type) (t : list A) (i : nat) : M A :=
  match nth_error t i with Some a => Return a | None => Raise IndexError end.

Definition raises (A : Type) (m : M A) : bool :=
  match m with Return _ => false | Raise _ => true end.

(* ================================================================== *)
(** ** Column statistics (pandas reductions, [skipna=True]) *)

Module Stats.

Open Scope Q_scope.

(** The non-missing readings of a column, in order. *)
Fixpoint dropna (col : list value) : list Q :=
  match col with
  | [] => []
  | NaN :: t => dropna t
  | Num q :: t => q :: dropna t
  end.

Definition Qsum (qs : list Q) : Q := fold_right Qplus 0 qs.

Definition count (qs : list Q) : Q := inject_Z (Z.of_nat (List.length qs)).

(** The arithmetic mean of a non-empty list of rationals. *)
Definition Qmean (qs : list Q) : Q := Qsum qs / count qs.

Definition Qmax (a b : Q) : Q := if Qle_bool a b then b else a.
Definition Qmin (a b : Q) : Q := if Qle_bool a b then a else b.

(** [Series.mean()]: NaN when no reading is left. *)
Definition mean (col : list value) : value :=
  match dropna col with
  | [] => NaN
  | qs => Num (Qmean qs)
  end.

(** [Series.max()] and [Series.min()]. *)
Definition max (col : list value) : value :=
  match dropna col with
  | [] => NaN
  | q :: qs => Num (fold_left Qmax qs q)
  end.

Definition min (col : list value) : value :=
  match dropna col with
  | [] => NaN
  | q :: qs => Num (fold_left Qmin qs q)
  end.

(** A statistic as [agg] produces it, before rounding: missing, a rational,
    or the non-negative square root of a rational (a standard deviation is
    not rational in general, so its radicand is kept). *)
Inductive stat : Type :=
| Missing
| Exact (q : Q)
| Root (q : Q).

Definition exact (v : value) : stat :=
  match v with NaN => Missing | Num q => Exact q end.

(** Sample variance, [ddof=1]. *)
Definition variance (qs : list Q) : Q :=
  let m := Qmean qs in
  Qsum (map (fun x => (x - m) * (x - m)) qs) / (count qs - 1).

(** [Series.std()], [ddof=1]: missing unless two readings are left. *)
Definition std (col : list value) : stat :=
  match dropna col with
  | [] => Missing
  | [_] => Missing
  | qs => Root (variance qs)
  end.

(** Round half to even, the rule of [numpy.rint]. *)
Definition rint (q : Q) : Z :=
  let f := Qfloor q in
  let r := q - inject_Z f in
  match Qcompare r (1 # 2) with
  | Lt => f
  | Gt => (f + 1)%Z
  | Eq => if Z.even f then f else (f + 1)%Z
  end.

(** The integer nearest to the square root of [x], half to even.  With
    [s = floor (sqrt (4 x))] the root lies in [[s/2, (s+1)/2)]. *)
Definition rint_sqrt (x : Q) : Z :=
  let s := Z.sqrt (Qfloor (4 * x)) in
  let k := (s / 2)%Z in
  if Z.even s then k
  else if Qeq_bool (4 * x) (inject_Z (s * s)) then
         (if Z.even k then k else (k + 1)%Z)
       else (k + 1)%Z.

(** [.round(1)] on one cell: scale by ten, round to the nearest integer,
    scale back. *)
Definition round1 (s : stat) : value :=
  match s with
  | Missing => NaN
  | Exact q => Num (inject_Z (rint (q * 10)) / 10)
  | Root x => Num (inject_Z (rint_sqrt (x * 100)) / 10)
  end.

(** [v] is the arithmetic mean of the readings of [col]: missing when
    there is none, and otherwise the number that, taken once per reading,
    adds up to their sum. *)
Definition is_mean_of (col : list value) (v : value) : Prop :=
  match dropna col with
  | [] => v = NaN
  | qs => exists m, v = Num m /\ m * count qs == Qsum qs
  end.

(** [v] is the largest (smallest) reading of [col], or missing. *)
Definition is_max_of (col : list value) (v : value) : Prop :=
  match dropna col with
  | [] => v = NaN
  | qs => exists m, v = Num m /\ In m qs /\ forall q, In q qs -> q <= m
  end.

Definition is_min_of (col : list value) (v : value) : Prop :=
  match dropna col with
  | [] => v = NaN
  | qs => exists m, v = Num m /\ In m qs /\ forall q, In q qs -> m <= q
  end.

(** [v] is the sample standard deviation of the readings of [col]: missing
    with fewer than two readings, and otherwise the root of the sum of
    squared deviations from the mean divided by one less than their count. *)
Definition is_std_of (col : list value) (s : stat) : Prop :=
  match dropna col with
  | [] => s = Missing
  | [_] => s = Missing
  | qs => exists m v, m * count qs == Qsum qs /\
                      v * (count qs - 1)
                      == Qsum (map (fun x => (x - m) * (x - m)) qs) /\
                      0 <= v /\
                      s = Root v
  end.

(** [v] is the statistic [s] rounded to one decimal: a whole number of
    tenths at most one twentieth away (for a root, measured on squares). *)
Definition rounded1 (s : stat) (v : value) : Prop :=
  match s, v with
  | Missing, NaN => True
  | Exact q, Num r =>
      (exists k : Z, r == inject_Z k / 10) /\
      r - (1 # 20) <= q <= r + (1 # 20)
  | Root x, Num r =>
      (exists k : Z, r == inject_Z k / 10) /\
      0 <= r /\
      x <= (r + (1 # 20)) * (r + (1 # 20)) /\
      (r == 0 \/ (r - (1 # 20)) * (r - (1 # 20)) <= x)
  | _, _ => False
  end.

End Stats.

(* ================================================================== *)
(** ** Sorting and grouping *)

Section Sort.

Variable A : Type.
Variable leb : A -> A -> bool.

(** Stable insertion: [x] goes before the first element it is not after. *)
Fixpoint insert (x : A) (l : list A) : list A :=
  match l with
  | [] => [x]
  | y :: t => if leb x y then x :: y :: t else y :: insert x t
  end.

Definition sort (l : list A) : list A := fold_right insert [] l.

End Sort.

Section GroupBy.

Variable K : Type.
Variable eqb : K -> K -> bool.
Variable leb : K -> K -> bool.

(** [Series.unique()]: first occurrences, in order of appearance. *)
Fixpoint unique (ks : list K) : list K :=
  match ks with
  | [] => []
  | k :: t => k :: filter (fun k' => negb (eqb k k')) (unique t)
  end.

(** The keys that are present (a missing key is dropped). *)
Fixpoint present (ks : list (option K)) : list K :=
  match ks with
  | [] => []
  | None :: t => present t
  | Some k :: t => k :: present t
  end.

Definition has_key (key : row -> option K) (k : K) (r : row) : bool :=
  match key r with Some k' => eqb k' k | None => false end.

(** [frame.groupby(key)] with the defaults [sort=True], [dropna=True]:
    one group per key value that occurs, in ascending key order, each
    holding its rows in frame order. *)
Definition groupby (key : row -> option K) (frame : DataFrame)
  : list (K * DataFrame) :=
  map (fun k => (k, filter (has_key key k) frame))
      (sort leb (unique (present (map key frame)))).

(** [groupby(key)[pollutant].agg(f)] *)
Definition agg (B : Type) (f : list value -> B) (p : pollutant)
           (groups : list (K * DataFrame)) : list (K * B) :=
  map (fun g => (fst g, f (map (column p) (snd g)))) groups.

End GroupBy.

(** [a] may stand before [b] in descending order with NaN last
    ([sort_values(ascending=False)], [na_position='last']). *)
Definition value_geb (a b : value) : bool :=
  match a, b with
  | _, NaN => true
  | NaN, Num _ => false
  | Num x, Num y => Qle_bool y x
  end.

(** [Series.sort_values(ascending=False)].  pandas leaves the relative
    position of equal means to the sorting routine; here they keep the
    order of the groups. *)
Definition sort_values_desc (K : Type) (s : list (K * value)) : list (K * value) :=
  sort (fun a b => value_geb (snd a) (snd b)) s.

(** Key orders: strings by code point, integers, and pairs of both. *)
Definition pair_eqb (a b : Z * string) : bool :=
  Z.eqb (fst a) (fst b) && String.eqb (snd a) (snd b).

Definition pair_leb (a b : Z * string) : bool :=
  match Z.compare (fst a) (fst b) with
  | Lt => true
  | Gt => false
  | Eq => String.leb (snd a) (snd b)
  end.

(* ================================================================== *)
(** ** Loader (app.py, lines 30-60) *)

Section Loader.

(** [pd.read_csv(file, encoding='utf-8')]: the rows of the file, or [None]
    when the call raises (missing file, bad encoding, parse error). *)
Variable read_csv : string -> option (list csv_row).

(** [pd.to_datetime(column, errors='coerce')] on one cell.  The whole
    column is an argument because the format is inferred from it. *)
Variable to_datetime : list (option string) -> option string -> Timestamp.

(** The message of [st.error] for a file that could not be read. *)
Definition read_failure (file : string) : string :=
  ("파일 읽기 실패: " ++ file)%string.

(** The [for period, file in files.items()] loop, threading the list [dfs]
    and the messages shown so far. *)
Fixpoint read_files (files : list (string * string))
         (dfs : list (list csv_row)) (errors : list string)
  : list (list csv_row) * list string :=
  match files with
  | [] => (dfs, errors)
  | (period, file) :: rest =>
      match read_csv file with
      | Some df => read_files rest (dfs ++ [df]) errors
      | None => read_files rest dfs (errors ++ [read_failure file])
      end
  end.

(** [data['일시'] = pd.to_datetime(data['일시'], errors='coerce')] *)
Definition parse_timestamps (data : list csv_row) : list (Timestamp * csv_row) :=
  let col := map csv_timestamp data in
  map (fun r => (to_datetime col (csv_timestamp r), r)) data.

(** [data = data.dropna(subset=['일시'])] *)
Definition dropna_timestamp (data : list (Timestamp * csv_row))
  : list (Timestamp * csv_row) :=
  filter (fun r => negb (isnat (fst r))) data.

(** The four assignments [data['연도'] = data['일시'].dt.year], ... *)
Definition derive_calendar (r : Timestamp * csv_row) : row :=
  let t := fst r in
  {| timestamp := t;
     district := csv_district (snd r);
     pm10 := csv_pm10 (snd r);
     pm25 := csv_pm25 (snd r);
     year := ts_field dt_year t;
     month := ts_field dt_month t;
     day := ts_field dt_day t;
     hour := ts_field dt_hour t |}.

(** The body of [if dfs:]. *)
Definition normalize (dfs : list (list csv_row)) : DataFrame :=
  let data := List.concat dfs in
  map derive_calendar (dropna_timestamp (parse_timestamps data)).

(** [load_data] over an arbitrary configuration: the unified table and the
    messages reported on the way. *)
Definition load_from (files : list (string * string)) : DataFrame * list string :=
  let (dfs, errors) := read_files files [] [] in
  match dfs with
  | [] => ([], errors)               (* return pd.DataFrame() *)
  | _ :: _ => (normalize dfs, errors)
  end.

(** The [files] dict of the program, in insertion order. *)
Definition files : list (string * string) :=
  [ ("2008-2011", "seoul_air_20082011.csv");
    ("2012-2015", "seoul_air_20122015.csv");
    ("2016-2019", "seoul_air_20162019.csv");
    ("2020-2021", "seoul_air_20202021.csv");
    ("2022", "seoul_air_2022.csv") ]%string.

Definition load_data : DataFrame * list string := load_from files.

(** The frames of the sources that can be read, in configuration order. *)
Fixpoint readable (files : list (string * string)) : list (list csv_row) :=
  match files with
  | [] => []
  | (_, file) :: rest =>
      match read_csv file with
      | Some df => df :: readable rest
      | None => readable rest
      end
  end.

(** The sources that cannot be read, in configuration order. *)
Fixpoint unreadable (files : list (string * string)) : list string :=
  match files with
  | [] => []
  | (_, file) :: rest =>
      match read_csv file with
      | Some _ => unreadable rest
      | None => file :: unreadable rest
      end
  end.

End Loader.

(* ================================================================== *)
(** ** Aggregator (app.py, lines 137-293) *)

(** [Series.isin(values)] on one cell. *)
Definition isin (s : string) (values : list string) : bool :=
  existsb (String.eqb s) values.

(** [data['연도'] == selected_year] on one row. *)
Definition year_is (selected_year : Z) (r : row) : bool :=
  match year r with
  | Some y => Z.eqb y selected_year
  | None => false
  end.

(** filtered_data = data[(data['연도'] == selected_year) &
                         (data['구분'].isin(selected_districts))].copy() *)
Definition filtered_data (data : DataFrame) (selected_year : Z)
           (selected_districts : list string) : DataFrame :=
  filter (fun r => year_is selected_year r && isin (district r) selected_districts)
         data.

(** latest_data = filtered_data[filtered_data['일시'] ==
                                filtered_data['일시'].max()] *)
Definition latest_data (filtered_data : DataFrame) : DataFrame :=
  let latest := ts_max (map timestamp filtered_data) in
  filter (fun r => ts_eqb (timestamp r) latest) filtered_data.

(** What the four [st.metric] cells of the first tab show. *)
Record status : Type := mkstatus {
  avg_value : value;
  avg_grade : string;
  max_value : value;
  max_district : string;
  min_value : value;
  min_district : string;
  measured_at : Timestamp
}.

(** The block under [if not latest_data.empty:] (lines 153-166); [None]
    when the guard skips it. *)
Definition current_status (filtered_data : DataFrame) (p : pollutant)
  : M (option status) :=
  let latest := latest_data filtered_data in
  if empty latest then Return None
  else
    let avg := Stats.mean (map (column p) latest) in
    let hi := Stats.max (map (column p) latest) in
    let lo := Stats.min (map (column p) latest) in
    (hi_d <- iloc0 (map district
                     (filter (fun r => value_eqb (column p r) hi) latest)) ;;
     lo_d <- iloc0 (map district
                     (filter (fun r => value_eqb (column p r) lo) latest)) ;;
     t <- iloc0 (map timestamp latest) ;;
     Return (Some {| avg_value := avg;
                     avg_grade := Grade.get_air_quality_grade avg (pollutant_name p);
                     max_value := hi;
                     max_district := hi_d;
                     min_value := lo;
                     min_district := lo_d;
                     measured_at := t |}))%py.

Definition district_key (r : row) : option string := Some (district r).

Definition month_district_key (r : row) : option (Z * string) :=
  match month r with
  | Some m => Some (m, district r)
  | None => None
  end.

(** district_avg = filtered_data.groupby('구분')[pollutant].mean()
                                 .sort_values(ascending=False) *)
Definition district_avg (filtered_data : DataFrame) (p : pollutant)
  : list (string * value) :=
  sort_values_desc
    (agg Stats.mean p (groupby String.eqb String.leb district_key filtered_data)).

(** monthly_trend = filtered_data.groupby(['월', '구분'])[pollutant].mean()
                                  .reset_index() *)
Definition monthly_trend (filtered_data : DataFrame) (p : pollutant)
  : list (Z * string * value) :=
  agg Stats.mean p (groupby pair_eqb pair_leb month_district_key filtered_data).

(** hourly_pattern = filtered_data.groupby(['시간'])[pollutant].mean()
                                   .reset_index() *)
Definition hourly_pattern (filtered_data : DataFrame) (p : pollutant)
  : list (Z * value) :=
  agg Stats.mean p (groupby Z.eqb Z.leb hour filtered_data).

(** One row of the mask of lines 286-289. *)
Definition in_range (first last : date) (r : row) : bool :=
  match ts_date (timestamp r) with
  | Some d => date_leb first d && date_leb d last
  | None => false
  end.

(** date_filtered = filtered_data[(... >= date_range[0]) &
                                  (... <= date_range[1])]
    where [date_range] is the tuple the date widget returned. *)
Definition date_filtered (filtered_data : DataFrame) (date_range : list date)
  : M DataFrame :=
  (first <- index date_range 0 ;;
   last <- index date_range 1 ;;
   Return (filter (in_range first last) filtered_data))%py.

(** The four columns of [summary_stats]. *)
Record summary (A : Type) : Type := mksummary {
  s_mean : A;
  s_max : A;
  s_min : A;
  s_std : A
}.

(** [.agg(['mean', 'max', 'min', 'std'])] on the readings of one group. *)
Definition describe (col : list value) : summary Stats.stat :=
  {| s_mean := Stats.exact (Stats.mean col);
     s_max := Stats.exact (Stats.max col);
     s_min := Stats.exact (Stats.min col);
     s_std := Stats.std col |}.

(** [.round(1)] on one row of the result. *)
Definition round_summary (s : summary Stats.stat) : summary value :=
  {| s_mean := Stats.round1 (s_mean s);
     s_max := Stats.round1 (s_max s);
     s_min := Stats.round1 (s_min s);
     s_std := Stats.round1 (s_std s) |}.

(** The table of [date_filtered.groupby('구분')[pollutant]
                   .agg(['mean', 'max', 'min', 'std']).round(1)]. *)
Definition summarize (frame : DataFrame) (p : pollutant)
  : list (string * summary value) :=
  map (fun g => (fst g, round_summary (snd g)))
      (agg describe p (groupby String.eqb String.leb district_key frame)).

(** summary_stats of the fourth tab, from the filtered view and the widget's
    date range. *)
Definition summary_stats (filtered_data : DataFrame) (p : pollutant)
           (date_range : list date) : M (list (string * summary value)) :=
  (frame <- date_filtered filtered_data date_range ;;
   Return (summarize frame p))%py.

(* ================================================================== *)
(** ** Vocabulary of the properties *)

(** The rows that [filtered_data] is to keep. *)
Definition selected (selected_year : Z) (selected_districts : list string)
           (r : row) : Prop :=
  year r = Some selected_year /\ In (district r) selected_districts.

(** A row of the view is a latest one: it has an instant, and no instant
    of the view is later. *)
Definition is_latest (view : DataFrame) (r : row) : Prop :=
  exists t, timestamp r = TS t /\
            forall r' t', In r' view -> timestamp r' = TS t' ->
                          dt_leb t' t = true.

(** A table of one row of nulls: what an empty result must not look like. *)
Definition null_row : row :=
  {| timestamp := NaT; district := ""; pm10 := NaN; pm25 := NaN;
     year := None; month := None; day := None; hour := None |}.

(** Every row of a normalized table has an instant, and its calendar
    columns are the components of that instant. *)
Definition consistent (r : row) : Prop :=
  exists t : datetime,
    timestamp r = TS t /\
    year r = Some (dt_year t) /\
    month r = Some (dt_month t) /\
    day r = Some (dt_day t) /\
    hour r = Some (dt_hour t).

(** Descending order of means, a missing mean after every number. *)
Definition descending (a b : value) : Prop :=
  match a, b with
  | _, NaN => True
  | NaN, Num _ => False
  | Num x, Num y => (y <= x)%Q
  end.

(** The rows of one district. *)
Definition rows_of (d : string) (view : DataFrame) : DataFrame :=
  filter (fun r => String.eqb (district r) d) view.

(** The four statistics of a column, before rounding. *)
Definition describes (col : list value) (st : summary Stats.stat) : Prop :=
  (exists v, s_mean st = Stats.exact v /\ Stats.is_mean_of col v) /\
  (exists v, s_max st = Stats.exact v /\ Stats.is_max_of col v) /\
  (exists v, s_min st = Stats.exact v /\ Stats.is_min_of col v) /\
  Stats.is_std_of col (s_std st).

(* ================================================================== *)
(** ** Scenarios *)

Module Scenario.

Open Scope string_scope.

Definition at_hour (h : Z) : datetime := mkdatetime 2022 6 1 h 0 0 0.

Definition reading (h : Z) (d : string) (a b : value) : row :=
  {| timestamp := TS (at_hour h); district := d; pm10 := a; pm25 := b;
     year := Some 2022%Z; month := Some 6%Z; day := Some 1%Z;
     hour := Some h |}.

Definition gangnam : row := reading 10 "강남구" (Num 25) NaN.

(** Two rows of 중구, one reading missing. *)
Definition junggu : DataFrame :=
  [ reading 10 "중구" (Num 40) NaN; reading 11 "중구" NaN NaN ].

(** A view whose latest snapshot has no PM10 reading. *)
Definition unread : DataFrame := [ reading 11 "중구" NaN NaN ].

Definition two_districts : DataFrame :=
  [ reading 10 "중구" (Num 40) NaN;
    reading 11 "중구" NaN NaN;
    reading 10 "강남구" (Num 25) (Num 10);
    reading 11 "강남구" (Num (71 # 2)) (Num 12) ].

Definition june1 : date := mkdate 2022 6 1.

(** Three configured sources, the second of which cannot be read. *)
Definition sources : list (string * string) :=
  [ ("2020", "a.csv"); ("2021", "b.csv"); ("2022", "c.csv") ].

Definition disk (file : string) : option (list csv_row) :=
  if String.eqb file "a.csv" then
    Some [ mkcsv (Some "2022-06-01 10:00") "중구" (Num 40) NaN;
           mkcsv (Some "not a date") "중구" (Num 41) NaN ]
  else if String.eqb file "c.csv" then
    Some [ mkcsv (Some "2022-06-01 11:00") "강남구" (Num 25) (Num 10) ]
  else None.

Definition parse (col : list (option string)) (cell : option string)
  : Timestamp :=
  match cell with
  | Some s =>
      if String.eqb s "2022-06-01 10:00" then TS (at_hour 10)
      else if String.eqb s "2022-06-01 11:00" then TS (at_hour 11)
      else NaT
  | None => NaT
  end.

End Scenario.

(* ================================================================== *)
(** ** Sidebar (app.py, lines 102-135) *)

(** years = sorted(data['연도'].unique()).  On a loaded table no year is
    missing; a missing year would not be a key here. *)
Definition years (data : DataFrame) : list Z :=
  sort Z.leb (unique Z.eqb (present (map year data))).

(** The option that [st.selectbox("연도 선택", years, index=len(years)-1)]
    shows selected: the last of [years]. *)
Definition default_year (data : DataFrame) : option Z :=
  nth_error (years data) (List.length (years data) - 1).

(** [favorites.remove(dist)]: the first occurrence goes; [None] stands for
    the ValueError of a value that is not in the list. *)
Fixpoint list_remove (x : string) (l : list string) : option (list string) :=
  match l with
  | [] => None
  | y :: t =>
      if String.eqb y x then Some t
      else match list_remove x t with
           | Some t' => Some (y :: t')
           | None => None
           end
  end.

(** The body of [if st.button("추가"):] on the list of favourites. *)
Definition add_favorite (fav_district : string) (favorites : list string)
  : list string :=
  if isin fav_district favorites then favorites
  else favorites ++ [fav_district].

(** One run of the script changes the favourites by one click: on "추가"
    with a district of the select box, or on the "삭제" button of a listed
    favourite (a button exists only for the entries of the list). *)
Inductive click (districts : list string) (favorites : list string)
  : list string -> Prop :=
| click_add (d : string) :
    In d districts ->
    click districts favorites (add_favorite d favorites)
| click_delete (d : string) (favorites' : list string) :
    In d favorites ->
    list_remove d favorites = Some favorites' ->
    click districts favorites favorites'.

(** The favourites a session can hold, starting from the empty list. *)
Inductive session (districts : list string) : list string -> Prop :=
| session_start : session districts []
| session_click (favorites favorites' : list string) :
    session districts favorites ->
    click districts favorites favorites' ->
    session districts favorites'.

(* ================================================================== *)
(** ** Map (app.py, lines 211-272) *)

(** district_coords: the 25 district offices, latitude and longitude. *)
Definition district_coords : list (string * (Q * Q)) :=
  [ ("종로구", (37.5735, 126.9790));
    ("중구", (37.5641, 126.9979));
    ("용산구", (37.5326, 126.9905));
    ("성동구", (37.5633, 127.0371));
    ("광진구", (37.5385, 127.0823));
    ("동대문구", (37.5744, 127.0400));
    ("중랑구", (37.6063, 127.0936));
    ("성북구", (37.5894, 127.0167));
    ("강북구", (37.6398, 127.0257));
    ("도봉구", (37.6687, 127.0471));
    ("노원구", (37.6543, 127.0568));
    ("은평구", (37.6175, 126.9227));
    ("서대문구", (37.5794, 126.9365));
    ("마포구", (37.5664, 126.9014));
    ("양천구", (37.5169, 126.8667));
    ("강서구", (37.5509, 126.8495));
    ("구로구", (37.4954, 126.8876));
    ("금천구", (37.4567, 126.8958));
    ("영등포구", (37.5264, 126.8962));
    ("동작구", (37.5124, 126.9393));
    ("관악구", (37.4782, 126.9516));
    ("서초구", (37.4837, 127.0324));
    ("강남구", (37.5172, 127.0473));
    ("송파구", (37.5145, 127.1058));
    ("강동구", (37.5301, 127.1238)) ]%string.

(** [district in district_coords] and [district_coords[district]]. *)
Fixpoint coords_get (coords : list (string * (Q * Q))) (d : string)
  : option (Q * Q) :=
  match coords with
  | [] => None
  | (k, loc) :: rest => if String.eqb d k then Some loc else coords_get rest d
  end.

(** The conditional expression of line 253. *)
Definition marker_color (grade : string) : string :=
  if String.eqb grade Grade.Good then "blue"%string
  else if String.eqb grade Grade.Moderate then "green"%string
  else if String.eqb grade Grade.Bad then "orange"%string
  else "red"%string.

(** What one [folium.CircleMarker] is built from. *)
Record marker : Type := mkmarker {
  mk_location : Q * Q;
  mk_district : string;
  mk_avg : value;
  mk_grade : string;
  mk_color : string
}.

(** The body of [for district in selected_districts:], the markers added to
    the map by one iteration. *)
Definition district_marker (filtered_data : DataFrame) (p : pollutant)
           (d : string) : list marker :=
  match coords_get district_coords d with
  | None => []
  | Some loc =>
      let district_data :=
        filter (fun r => String.eqb (district r) d) filtered_data in
      if empty district_data then []
      else
        let avg_pollution := Stats.mean (map (column p) district_data) in
        let grade :=
          Grade.get_air_quality_grade avg_pollution (pollutant_name p) in
        [ {| mk_location := loc;
             mk_district := d;
             mk_avg := avg_pollution;
             mk_grade := grade;
             mk_color := marker_color grade |} ]
  end.

Definition markers (filtered_data : DataFrame) (p : pollutant)
           (selected_districts : list string) : list marker :=
  flat_map (district_marker filtered_data p) selected_districts.

(* ================================================================== *)
(** ** Date range of the fourth tab (app.py, lines 278-283) *)

(** The [value] handed to [st.date_input]: the dates of the earliest and
    of the latest instant of the view.  [None] when the view has no
    instant: both are NaT then, and there is no date to offer. *)
Definition default_date_range (filtered_data : DataFrame)
  : option (list date) :=
  match ts_date (ts_min (map timestamp filtered_data)),
        ts_date (ts_max (map timestamp filtered_data)) with
  | Some first, Some last => Some [first; last]
  | _, _ => None
  end.

(** The rows of one hour of the day, and of one month in one district. *)
Definition rows_at_hour (h : Z) (view : DataFrame) : DataFrame :=
  filter (fun r => match hour r with
                   | Some h' => Z.eqb h' h
                   | None => false
                   end) view.

Definition rows_in_month (m : Z) (d : string) (view : DataFrame) : DataFrame :=
  filter (fun r => match month r with
                   | Some m' => Z.eqb m' m && String.eqb (district r) d
                   | None => false
                   end) view.

(** The rows of the readable sources, in configuration order, and the
    instant that [pd.to_datetime] gives one of them. *)
Definition source_rows (read_csv : string -> option (list csv_row))
           (files : list (string * string)) : list csv_row :=
  List.concat (readable read_csv files).

Definition parsed (read_csv : string -> option (list csv_row))
           (to_datetime : list (option string) -> option string -> Timestamp)
           (files : list (string * string)) (c : csv_row) : Timestamp :=
  to_datetime (map csv_timestamp (source_rows read_csv files))
              (csv_timestamp c).

(** Dates in calendar order, and the rows whose instant falls on a date
    from [first] to [last], both included. *)
Definition date_le (a b : date) : Prop :=
  (d_year a < d_year b)%Z \/
  (d_year a = d_year b /\
   ((d_month a < d_month b)%Z \/
    (d_month a = d_month b /\ (d_day a <= d_day b)%Z))).

Definition dated_within (first last : date) (r : row) : Prop :=
  exists t,
    timestamp r = TS t /\
    date_le first (mkdate (dt_year t) (dt_month t) (dt_day t)) /\
    date_le (mkdate (dt_year t) (dt_month t) (dt_day t)) last.

(* ================================================================== *)
(** * Properties *)

Unset Implicit Arguments.

(** ** Comparisons of readings *)

Lemma Qle_bool_false (x y : Q) : Qle_bool x y = false <-> (y < x)%Q.
Proof.
  split; intro H.
  - apply Qnot_le_lt. intro L. apply Qle_bool_iff in L. congruence.
  - destruct (Qle_bool x y) eqn:E; trivial.
    apply Qle_bool_iff in E. apply Qle_not_lt in E. contradiction.
Qed.

(** ** Grades *)

Module GradeFacts.

Import Grade.
Open Scope Q_scope.

(** The labels are pairwise distinct strings. *)
Lemma labels_distinct :
  NoDup [Good; Moderate; Bad; VeryBad; NoData].
Proof.
  repeat constructor; simpl; intuition discriminate.
Qed.

Ltac split_le :=
  repeat match goal with
         | |- context [Qle_bool ?a ?b] =>
             let E := fresh "E" in
             destruct (Qle_bool a b) eqn:E;
             [ apply Qle_bool_iff in E | apply Qle_bool_false in E ]
         end.

(** What a threshold table says about one reading. *)
Lemma classify_spec (t1 t2 t3 : Z) (q : Q) :
  (t1 <= t2)%Z -> (t2 <= t3)%Z ->
  (classify t1 t2 t3 q = Good <-> q <= inject_Z t1) /\
  (classify t1 t2 t3 q = Moderate <-> inject_Z t1 < q <= inject_Z t2) /\
  (classify t1 t2 t3 q = Bad <-> inject_Z t2 < q <= inject_Z t3) /\
  (classify t1 t2 t3 q = VeryBad <-> inject_Z t3 < q).
Proof.
  intros H12 H23.
  rewrite Zle_Qle in H12, H23.
  unfold classify. split_le;
    (repeat split; intros; try discriminate; try reflexivity; try lra).
Qed.

Lemma grade_PM10 (q : Q) :
  get_air_quality_grade (Num q) "PM10" = classify 30 80 150 q.
Proof. reflexivity. Qed.

Lemma grade_other (p : string) (q : Q) :
  p <> "PM10"%string ->
  get_air_quality_grade (Num q) p = classify 15 35 75 q.
Proof.
  intro H. unfold get_air_quality_grade. simpl isna. cbv iota.
  destruct (String.eqb_spec p "PM10") as [E | _]; [contradiction | reflexivity].
Qed.

Lemma classify_severity (t1 t2 t3 : Z) (q : Q) :
  exists s, severity (classify t1 t2 t3 q) = Some s /\
            (s = 0%nat /\ q <= inject_Z t1 \/
             s = 1%nat /\ inject_Z t1 < q <= inject_Z t2 \/
             s = 2%nat /\ inject_Z t1 < q /\ inject_Z t2 < q <= inject_Z t3 \/
             s = 3%nat /\ inject_Z t1 < q /\ inject_Z t2 < q /\ inject_Z t3 < q).
Proof.
  unfold classify. split_le.
  - exists 0%nat. split; [reflexivity | tauto].
  - exists 1%nat. split; [reflexivity | tauto].
  - exists 2%nat. split; [reflexivity | tauto].
  - exists 3%nat. split; [reflexivity | tauto].
Qed.

Lemma classify_monotone (t1 t2 t3 : Z) (q1 q2 : Q) :
  q1 <= q2 ->
  exists s1 s2,
    severity (classify t1 t2 t3 q1) = Some s1 /\
    severity (classify t1 t2 t3 q2) = Some s2 /\
    (s1 <= s2)%nat.
Proof.
  intro H.
  destruct (classify_severity t1 t2 t3 q1) as (s1 & E1 & C1).
  destruct (classify_severity t1 t2 t3 q2) as (s2 & E2 & C2).
  exists s1, s2. repeat split; trivial.
  destruct C1 as [[-> ?] | [[-> ?] | [[-> ?] | [-> ?]]]];
    destruct C2 as [[-> ?] | [[-> ?] | [[-> ?] | [-> ?]]]];
    try lia; exfalso; lra.
Qed.

(** C2.  The threshold table.  For a reading [q], the grade for 'PM10' is
    Good iff q <= 30, Moderate iff 30 < q <= 80, Bad iff 80 < q <= 150 and
    Very Bad iff q > 150; the grade for 'PM2.5' is Good iff q <= 15,
    Moderate iff 15 < q <= 35, Bad iff 35 < q <= 75 and Very Bad iff q > 75.
    A missing value gets the no-data label whatever the pollutant, and that
    label is none of the four severity grades. *)
Theorem grade_thresholds :
  (forall q : Q,
      (get_air_quality_grade (Num q) "PM10" = Good <-> q <= 30) /\
      (get_air_quality_grade (Num q) "PM10" = Moderate <-> 30 < q <= 80) /\
      (get_air_quality_grade (Num q) "PM10" = Bad <-> 80 < q <= 150) /\
      (get_air_quality_grade (Num q) "PM10" = VeryBad <-> 150 < q)) /\
  (forall q : Q,
      (get_air_quality_grade (Num q) "PM2.5" = Good <-> q <= 15) /\
      (get_air_quality_grade (Num q) "PM2.5" = Moderate <-> 15 < q <= 35) /\
      (get_air_quality_grade (Num q) "PM2.5" = Bad <-> 35 < q <= 75) /\
      (get_air_quality_grade (Num q) "PM2.5" = VeryBad <-> 75 < q)) /\
  (forall p : string,
      get_air_quality_grade NaN p = NoData /\
      severity (get_air_quality_grade NaN p) = None /\
      ~ In (get_air_quality_grade NaN p) [Good; Moderate; Bad; VeryBad]).
Proof.
  split; [| split].
  - intro q. rewrite grade_PM10.
    apply (classify_spec 30 80 150 q); lia.
  - intro q. rewrite (grade_other "PM2.5" q) by discriminate.
    apply (classify_spec 15 35 75 q); lia.
  - intro p. repeat split; simpl; intuition discriminate.
Qed.

(** C6.  For each pollutant identifier the grade never gets less severe as
    the reading grows, and the no-data label is returned exactly for a
    missing value. *)
Theorem grade_monotone (pollutant : string) :
  (forall q1 q2 : Q,
      q1 <= q2 ->
      no_more_severe (get_air_quality_grade (Num q1) pollutant)
                     (get_air_quality_grade (Num q2) pollutant)) /\
  (forall v : value,
      get_air_quality_grade v pollutant = NoData <-> v = NaN).
Proof.
  split.
  - intros q1 q2 H. unfold no_more_severe.
    destruct (string_dec pollutant "PM10") as [-> | N].
    + rewrite !grade_PM10.
      destruct (classify_monotone 30 80 150 q1 q2 H) as (s1 & s2 & -> & -> & L).
      exact L.
    + rewrite !(grade_other pollutant q1 N), !(grade_other pollutant q2 N).
      destruct (classify_monotone 15 35 75 q1 q2 H) as (s1 & s2 & -> & -> & L).
      exact L.
  - intros [| q]; split; intro H; try reflexivity; try discriminate.
    exfalso.
    assert (S : severity (get_air_quality_grade (Num q) pollutant) = None)
      by (rewrite H; reflexivity).
    destruct (string_dec pollutant "PM10") as [-> | N].
    + rewrite grade_PM10 in S.
      destruct (classify_severity 30 80 150 q) as (s & E & _). congruence.
    + rewrite (grade_other pollutant q N) in S.
      destruct (classify_severity 15 35 75 q) as (s & E & _). congruence.
Qed.

(** Monotonicity on two readings on either side of a PM10 threshold. *)
Lemma grade_monotone_witness :
  no_more_severe (get_air_quality_grade (Num 25) "PM10")
                 (get_air_quality_grade (Num 90) "PM10").
Proof.
  apply (proj1 (grade_monotone "PM10") 25 90).
  unfold Qle; simpl; lia.
Defined.

(** C10.  Only the identifier 'PM10' selects the PM10 table: under any
    other identifier ('PM25', 'PM2.5', or any string at all) a reading is
    graded with the PM2.5 thresholds, exactly as under 'PM2.5'. *)
Theorem grade_other_identifier (pollutant : string) (q : Q) :
  pollutant <> "PM10"%string ->
  get_air_quality_grade (Num q) pollutant
    = get_air_quality_grade (Num q) "PM2.5" /\
  (get_air_quality_grade (Num q) pollutant = Good <-> q <= 15) /\
  (get_air_quality_grade (Num q) pollutant = Moderate <-> 15 < q <= 35) /\
  (get_air_quality_grade (Num q) pollutant = Bad <-> 35 < q <= 75) /\
  (get_air_quality_grade (Num q) pollutant = VeryBad <-> 75 < q).
Proof.
  intro N. split.
  - rewrite (grade_other pollutant q N), (grade_other "PM2.5" q) by discriminate.
    reflexivity.
  - rewrite (grade_other pollutant q N).
    apply (classify_spec 15 35 75 q); lia.
Qed.

(** The identifier the radio button really passes, 'PM25', on a reading
    of 20: Moderate by the PM2.5 table (it would be Good for 'PM10'). *)
Lemma grade_other_identifier_witness :
  get_air_quality_grade (Num 20) "PM25" = Moderate /\
  get_air_quality_grade (Num 20) "PM10" = Good.
Proof.
  split; [| reflexivity].
  apply (proj1 (proj2 (proj2
           (grade_other_identifier "PM25" 20 ltac:(discriminate))))).
  unfold Qlt, Qle; simpl; lia.
Defined.

End GradeFacts.

(* ================================================================== *)
(** ** The chronological order *)

Lemma lex_compare_refl (a : list Z) : lex_compare a a = Eq.
Proof.
  induction a as [| x a IH]; simpl; trivial.
  now rewrite Z.compare_refl.
Qed.

Lemma lex_compare_eq (a b : list Z) : lex_compare a b = Eq -> a = b.
Proof.
  revert b. induction a as [| x a IH]; intros [| y b]; simpl; try easy.
  destruct (Z.compare_spec x y) as [E | L | L]; try discriminate.
  intro H. f_equal; auto.
Qed.

Lemma lex_compare_antisym (a b : list Z) :
  lex_compare b a = CompOpp (lex_compare a b).
Proof.
  revert b. induction a as [| x a IH]; intros [| y b]; simpl; trivial.
  rewrite (Z.compare_antisym x y).
  destruct (x ?= y)%Z; simpl; auto.
Qed.

Lemma lex_compare_trans (a b c : list Z) :
  lex_compare a b <> Gt -> lex_compare b c <> Gt -> lex_compare a c <> Gt.
Proof.
  revert b c.
  induction a as [| x a IH]; intros [| y b] [| z c]; simpl; try easy.
  destruct (Z.compare_spec x y), (Z.compare_spec y z), (Z.compare_spec x z);
    try lia; try easy; subst.
  apply IH.
Qed.

Lemma dt_key_inj (a b : datetime) : dt_key a = dt_key b -> a = b.
Proof.
  destruct a, b. unfold dt_key. simpl. intro H.
  injection H. intros. subst. reflexivity.
Qed.

Lemma dt_eqb_eq (a b : datetime) : dt_eqb a b = true <-> a = b.
Proof.
  unfold dt_eqb, dt_compare. split.
  - destruct (lex_compare (dt_key a) (dt_key b)) eqn:E; try discriminate.
    intros _. now apply dt_key_inj, lex_compare_eq.
  - intros ->. now rewrite lex_compare_refl.
Qed.

Lemma dt_leb_refl (a : datetime) : dt_leb a a = true.
Proof. unfold dt_leb, dt_compare. now rewrite lex_compare_refl. Qed.

Lemma dt_leb_total (a b : datetime) : dt_leb a b = true \/ dt_leb b a = true.
Proof.
  unfold dt_leb, dt_compare.
  rewrite (lex_compare_antisym (dt_key a) (dt_key b)).
  destruct (lex_compare (dt_key a) (dt_key b)); simpl; auto.
Qed.

Lemma dt_leb_trans (a b c : datetime) :
  dt_leb a b = true -> dt_leb b c = true -> dt_leb a c = true.
Proof.
  unfold dt_leb, dt_compare. intros H1 H2.
  pose proof (lex_compare_trans (dt_key a) (dt_key b) (dt_key c)) as T.
  destruct (lex_compare (dt_key a) (dt_key b)),
           (lex_compare (dt_key b) (dt_key c)),
           (lex_compare (dt_key a) (dt_key c));
    try discriminate; try reflexivity; exfalso; apply T; easy.
Qed.

Lemma dt_leb_antisym (a b : datetime) :
  dt_leb a b = true -> dt_leb b a = true -> a = b.
Proof.
  unfold dt_leb, dt_compare.
  rewrite (lex_compare_antisym (dt_key a) (dt_key b)).
  destruct (lex_compare (dt_key a) (dt_key b)) eqn:E; simpl; try discriminate.
  intros _ _. now apply dt_key_inj, lex_compare_eq.
Qed.

(** [ts_max] is NaT only on a column of NaT, and otherwise an instant of the
    column that no instant of the column is later than. *)
Lemma ts_max_NaT (col : list Timestamp) :
  ts_max col = NaT -> forall t, In t col -> t = NaT.
Proof.
  induction col as [| a col IH]; simpl; [easy |].
  intros H t [<- | I].
  - destruct a as [| x]; trivial.
    destruct (ts_max col) as [| y]; simpl in H; try discriminate.
    destruct (dt_leb x y); discriminate.
  - apply IH; trivial.
    destruct a as [| x]; trivial.
    destruct (ts_max col) as [| y]; trivial; simpl in H.
    destruct (dt_leb x y); discriminate.
Qed.

Lemma ts_max_TS (col : list Timestamp) (m : datetime) :
  ts_max col = TS m ->
  In (TS m) col /\ forall t, In (TS t) col -> dt_leb t m = true.
Proof.
  revert m. induction col as [| a col IH]; simpl; [easy |].
  intros m H.
  destruct a as [| x].
  - simpl in H. destruct (IH m H) as [I U]. split; auto.
    intros t [E | I']; [discriminate | auto].
  - destruct (ts_max col) as [| y] eqn:E; simpl in H.
    + injection H as <-. split; auto.
      intros t [E' | I'].
      * injection E' as <-. apply dt_leb_refl.
      * pose proof (ts_max_NaT col E (TS t) I'). discriminate.
    + destruct (IH y eq_refl) as [I U].
      destruct (dt_leb x y) eqn:L; injection H as ->.
      * split; auto. intros t [E' | I']; auto.
        injection E' as <-. exact L.
      * assert (L' : dt_leb y m = true)
          by (destruct (dt_leb_total m y); congruence).
        split; auto. intros t [E' | I'].
        -- injection E' as <-. apply dt_leb_refl.
        -- apply dt_leb_trans with y; auto.
Qed.

(* ================================================================== *)
(** ** Filter and latest snapshot *)

Lemma isin_In (s : string) (values : list string) :
  isin s values = true <-> In s values.
Proof.
  unfold isin. rewrite existsb_exists. split.
  - intros (x & I & E). apply String.eqb_eq in E. now subst.
  - intro I. exists s. split; trivial. apply String.eqb_refl.
Qed.

Lemma year_is_spec (y : Z) (r : row) : year_is y r = true <-> year r = Some y.
Proof.
  unfold year_is. destruct (year r) as [y' |].
  - rewrite Z.eqb_eq. split; congruence.
  - split; discriminate.
Qed.

(** C1.  [filtered_data] removes from the table the rows that are not
    selected and nothing else, keeping order and repetitions: its rows are
    exactly the rows of the table whose year is the given one and whose
    district is among the given ones.  With no district given, no row is
    left, whatever the year. *)
Theorem filtered_data_spec (data : DataFrame) (selected_year : Z)
        (selected_districts : list string) :
  (exists keep : row -> bool,
      filtered_data data selected_year selected_districts = filter keep data /\
      forall r, keep r = true <-> selected selected_year selected_districts r) /\
  (forall r,
      In r (filtered_data data selected_year selected_districts) <->
      In r data /\ year r = Some selected_year /\
      In (district r) selected_districts) /\
  filtered_data data selected_year [] = [].
Proof.
  assert (K : forall ds r,
             year_is selected_year r && isin (district r) ds = true <->
             selected selected_year ds r).
  { intros ds r. unfold selected.
    now rewrite andb_true_iff, year_is_spec, isin_In. }
  split; [| split].
  - eexists. split; [reflexivity | apply K].
  - intro r. unfold filtered_data. rewrite filter_In, K. reflexivity.
  - unfold filtered_data. induction data as [| r data IH]; simpl; trivial.
    now rewrite andb_false_r.
Qed.

Lemma latest_keep (view : DataFrame) (r : row) :
  In r view ->
  ts_eqb (timestamp r) (ts_max (map timestamp view)) = true <->
  is_latest view r.
Proof.
  intro I. unfold is_latest.
  destruct (ts_max (map timestamp view)) as [| m] eqn:E.
  - split.
    + destruct (timestamp r); discriminate.
    + intros (t & T & _).
      pose proof (ts_max_NaT _ E (timestamp r) (in_map timestamp _ _ I)).
      congruence.
  - destruct (ts_max_TS _ m E) as [Im U]. split.
    + destruct (timestamp r) as [| t] eqn:T; simpl; try discriminate.
      rewrite dt_eqb_eq. intros ->. exists m. split; trivial.
      intros r' t' I' T'. apply U. rewrite <- T'. now apply in_map.
    + intros (t & T & L). rewrite T. simpl. apply dt_eqb_eq.
      apply dt_leb_antisym.
      * apply U. rewrite <- T. now apply in_map.
      * apply in_map_iff in Im. destruct Im as (r' & T' & I').
        now apply (L r' m).
Qed.

(** C9.  [latest_data] keeps of a view exactly its latest rows, in order
    (all of them when several districts share the latest instant); it is
    empty on the empty view, and not empty as soon as some row of the view
    has an instant. *)
Theorem latest_data_spec (view : DataFrame) :
  latest_data [] = [] /\
  (exists keep : row -> bool,
      latest_data view = filter keep view /\
      forall r, In r view -> (keep r = true <-> is_latest view r)) /\
  (forall r, In r (latest_data view) <-> In r view /\ is_latest view r) /\
  ((exists r, In r view /\ timestamp r <> NaT) -> latest_data view <> []).
Proof.
  split; [reflexivity |]. split; [| split].
  - exists (fun r => ts_eqb (timestamp r) (ts_max (map timestamp view))).
    split; [reflexivity |]. intros r I. now apply latest_keep.
  - intro r. unfold latest_data. rewrite filter_In. split.
    + intros [I E]. split; trivial. now apply latest_keep.
    + intros [I L]. split; trivial. now apply latest_keep.
  - intros (r & I & T) E.
    destruct (ts_max (map timestamp view)) as [| m] eqn:M.
    + apply T. apply (ts_max_NaT _ M). now apply in_map.
    + destruct (ts_max_TS _ m M) as [Im _].
      apply in_map_iff in Im. destruct Im as (r' & T' & I').
      assert (In r' (latest_data view)) as X.
      { unfold latest_data. apply filter_In. split; trivial.
        rewrite M, T'. simpl. now apply dt_eqb_eq. }
      rewrite E in X. exact X.
Qed.

(* ================================================================== *)
(** ** Loader *)

Section LoaderFacts.

Variable read_csv : string -> option (list csv_row).
Variable to_datetime : list (option string) -> option string -> Timestamp.

(** The loop appends the readable frames to [dfs] and one message per
    unreadable file to the messages, both in configuration order. *)
Lemma read_files_spec (files : list (string * string))
      (dfs : list (list csv_row)) (errors : list string) :
  read_files read_csv files dfs errors
  = (dfs ++ readable read_csv files,
     errors ++ map read_failure (unreadable read_csv files)).
Proof.
  revert dfs errors.
  induction files as [| [period file] rest IH]; intros dfs errors; simpl.
  - now rewrite !app_nil_r.
  - destruct (read_csv file) as [df |]; rewrite IH; simpl.
    + now rewrite <- app_assoc.
    + now rewrite <- app_assoc.
Qed.

Lemma load_from_eq (files : list (string * string)) :
  load_from read_csv to_datetime files
  = (normalize to_datetime (readable read_csv files),
     map read_failure (unreadable read_csv files)).
Proof.
  unfold load_from. rewrite read_files_spec. simpl.
  destruct (readable read_csv files); reflexivity.
Qed.

Lemma readable_app (a b : list (string * string)) :
  readable read_csv (a ++ b) = readable read_csv a ++ readable read_csv b.
Proof.
  induction a as [| [period file] a IH]; simpl; trivial.
  destruct (read_csv file); simpl; now rewrite IH.
Qed.

Lemma unreadable_app (a b : list (string * string)) :
  unreadable read_csv (a ++ b)
  = unreadable read_csv a ++ unreadable read_csv b.
Proof.
  induction a as [| [period file] a IH]; simpl; trivial.
  destruct (read_csv file); simpl; now rewrite IH.
Qed.

Lemma filter_map_swap (A B : Type) (keep : B -> bool) (g : A -> B)
      (rows : list A) :
  filter keep (map g rows) = map g (filter (fun x => keep (g x)) rows).
Proof.
  induction rows as [| x rows IH]; simpl; trivial.
  destruct (keep (g x)); simpl; now rewrite IH.
Qed.

(** The table, row by row: the rows of the readable sources whose 일시
    parses, each with its calendar columns. *)
Lemma load_from_rows_eq (files : list (string * string)) :
  fst (load_from read_csv to_datetime files)
  = map (fun c => derive_calendar (parsed read_csv to_datetime files c, c))
        (filter (fun c => negb (isnat (parsed read_csv to_datetime files c)))
                (source_rows read_csv files)).
Proof.
  rewrite load_from_eq. simpl.
  unfold normalize, dropna_timestamp, parse_timestamps.
  rewrite filter_map_swap, map_map. reflexivity.
Qed.

Lemma source_rows_app (before after : list (string * string)) :
  source_rows read_csv (before ++ after)
  = source_rows read_csv before ++ source_rows read_csv after.
Proof.
  unfold source_rows. now rewrite readable_app, concat_app.
Qed.

Lemma source_rows_one (period file : string) :
  source_rows read_csv [(period, file)]
  = match read_csv file with Some df => df | None => [] end.
Proof.
  unfold source_rows. simpl.
  destruct (read_csv file); simpl; trivial. apply app_nil_r.
Qed.

(** C4.  Loading a configuration of sources (a) reports one failure per
    source that cannot be read, in order, and (b) still returns a table made
    of the sources that can be read: the rows of those sources, source
    after source in configuration order and row after row within a source,
    of which the ones whose 일시 parses are in the table, in that order,
    with their instant, district and readings; so (c) an unreadable source
    in the middle of a configuration changes nothing in the table but adds
    its message; and (d) when no source can be read the table is empty: no
    row at all, which is not a row of nulls. *)
Theorem load_from_spec (files : list (string * string)) :
  snd (load_from read_csv to_datetime files)
    = map read_failure (unreadable read_csv files) /\
  fst (load_from read_csv to_datetime files)
    = normalize to_datetime (readable read_csv files) /\
  map (fun r => (timestamp r, district r, pm10 r, pm25 r))
      (fst (load_from read_csv to_datetime files))
    = map (fun c => (parsed read_csv to_datetime files c,
                     csv_district c, csv_pm10 c, csv_pm25 c))
          (filter (fun c => negb (isnat (parsed read_csv to_datetime files c)))
                  (source_rows read_csv files)) /\
  (forall before after,
      source_rows read_csv (before ++ after)
      = source_rows read_csv before ++ source_rows read_csv after) /\
  (forall period file,
      source_rows read_csv [(period, file)]
      = match read_csv file with Some df => df | None => [] end) /\
  (forall before after period file,
      files = before ++ (period, file) :: after ->
      read_csv file = None ->
      fst (load_from read_csv to_datetime files)
        = fst (load_from read_csv to_datetime (before ++ after)) /\
      snd (load_from read_csv to_datetime files)
        = map read_failure (unreadable read_csv before)
          ++ read_failure file
          :: map read_failure (unreadable read_csv after)) /\
  (readable read_csv files = [] ->
      fst (load_from read_csv to_datetime files) = [] /\
      empty (fst (load_from read_csv to_datetime files)) = true /\
      fst (load_from read_csv to_datetime files) <> [null_row] /\
      List.length (snd (load_from read_csv to_datetime files))
        = List.length files).
Proof.
  split; [| split; [| split; [| split; [| split; [| split]]]]].
  - now rewrite load_from_eq.
  - now rewrite load_from_eq.
  - rewrite load_from_rows_eq, map_map. reflexivity.
  - apply source_rows_app.
  - apply source_rows_one.
  - intros before after period file -> U.
    rewrite !load_from_eq. simpl.
    rewrite readable_app, unreadable_app. simpl. rewrite U.
    rewrite readable_app, map_app. split; reflexivity.
  - intro E. rewrite load_from_eq. simpl. rewrite E.
    repeat split; try discriminate.
    rewrite length_map. clear to_datetime.
    induction files as [| [period file] rest IH]; simpl in *; trivial.
    destruct (read_csv file); [discriminate | simpl; f_equal; auto].
Qed.

Lemma normalize_consistent (dfs : list (list csv_row)) (r : row) :
  In r (normalize to_datetime dfs) -> consistent r.
Proof.
  unfold normalize, dropna_timestamp. intro I.
  apply in_map_iff in I. destruct I as ([t c] & <- & I).
  apply filter_In in I. destruct I as [_ V]. simpl in V.
  destruct t as [| t]; [discriminate |].
  exists t. repeat split.
Qed.

(** The 일시 column of the result: the parsed column without its NaT. *)
Lemma normalize_timestamps (dfs : list (list csv_row)) :
  map timestamp (normalize to_datetime dfs)
  = filter (fun t => negb (isnat t))
           (map (to_datetime (map csv_timestamp (List.concat dfs)))
                (map csv_timestamp (List.concat dfs))).
Proof.
  unfold normalize, dropna_timestamp, parse_timestamps.
  generalize (to_datetime (map csv_timestamp (List.concat dfs))) as parse.
  intro parse.
  induction (List.concat dfs) as [| c data IH]; simpl; trivial.
  destruct (isnat (parse (csv_timestamp c))); simpl; now rewrite IH.
Qed.

(** C7.  Every row of the loaded table has a valid instant in 일시 (never
    NaT) and its 연도, 월, 일, 시간 are the year, month, day and hour of that
    instant.  The rows whose text does not parse are dropped: the 일시
    column of the table is the parsed column of the concatenated sources
    with the NaT entries removed, the other entries unchanged and in order. *)
Theorem load_from_consistent (files : list (string * string)) :
  (forall r, In r (fst (load_from read_csv to_datetime files)) ->
             timestamp r <> NaT /\ consistent r) /\
  map timestamp (fst (load_from read_csv to_datetime files))
  = filter (fun t => negb (isnat t))
      (map (to_datetime
              (map csv_timestamp (List.concat (readable read_csv files))))
           (map csv_timestamp (List.concat (readable read_csv files)))).
Proof.
  rewrite load_from_eq. simpl. split.
  - intros r I. apply normalize_consistent in I.
    split; trivial. destruct I as (t & -> & _). discriminate.
  - apply normalize_timestamps.
Qed.

End LoaderFacts.

(* ================================================================== *)
(** ** Sorting *)

Section SortFacts.

Variable A : Type.
Variable leb : A -> A -> bool.

Lemma insert_perm (x : A) (l : list A) : Permutation (insert leb x l) (x :: l).
Proof.
  induction l as [| y t IH]; simpl; [reflexivity |].
  destruct (leb x y); [reflexivity |].
  rewrite IH. apply perm_swap.
Qed.

Lemma sort_perm (l : list A) : Permutation (sort leb l) l.
Proof.
  induction l as [| x l IH]; simpl; [reflexivity |].
  rewrite insert_perm. now constructor.
Qed.

Hypothesis leb_total : forall a b, leb a b = true \/ leb b a = true.
Hypothesis leb_trans :
  forall a b c, leb a b = true -> leb b c = true -> leb a c = true.

Lemma insert_sorted (x : A) (l : list A) :
  StronglySorted (fun a b => leb a b = true) l ->
  StronglySorted (fun a b => leb a b = true) (insert leb x l).
Proof.
  induction 1 as [| y t S IH F]; simpl.
  - repeat constructor.
  - destruct (leb x y) eqn:E.
    + constructor; [now constructor |].
      constructor; trivial.
      eapply Forall_impl; [| exact F]. intros z L. now apply leb_trans with y.
    + constructor; trivial.
      apply (Permutation_Forall (Permutation_sym (insert_perm x t))).
      constructor; trivial.
      destruct (leb_total x y); congruence.
Qed.

Lemma sort_sorted (l : list A) :
  StronglySorted (fun a b => leb a b = true) (sort leb l).
Proof.
  induction l as [| x l IH]; simpl; [constructor | now apply insert_sorted].
Qed.

End SortFacts.

Lemma value_geb_spec (a b : value) : value_geb a b = true <-> descending a b.
Proof.
  destruct a as [| x], b as [| y]; simpl; try easy.
  apply Qle_bool_iff.
Qed.

Lemma value_geb_total (a b : value) :
  value_geb a b = true \/ value_geb b a = true.
Proof.
  rewrite !value_geb_spec.
  destruct a as [| x], b as [| y]; simpl; auto.
  destruct (Qlt_le_dec x y); [right | left]; trivial. now apply Qlt_le_weak.
Qed.

Lemma value_geb_trans (a b c : value) :
  value_geb a b = true -> value_geb b c = true -> value_geb a c = true.
Proof.
  rewrite !value_geb_spec.
  destruct a as [| x], b as [| y], c as [| z]; simpl; try easy.
  intros. now apply Qle_trans with y.
Qed.

Lemma sort_values_desc_perm (K : Type) (s : list (K * value)) :
  Permutation (sort_values_desc s) s.
Proof. apply sort_perm. Qed.

Lemma sort_values_desc_sorted (K : Type) (s : list (K * value)) :
  StronglySorted (fun a b => descending (snd a) (snd b)) (sort_values_desc s).
Proof.
  unfold sort_values_desc.
  eapply StronglySorted_ind with
    (P := StronglySorted (fun a b => descending (snd a) (snd b)));
    [ constructor
    | 
    | apply sort_sorted ].
  - intros a l _ S F. constructor; trivial.
    eapply Forall_impl; [| exact F]. intros b L. now apply value_geb_spec.
  - intros a b. apply value_geb_total.
  - intros a b c. apply value_geb_trans.
Qed.

(* ================================================================== *)
(** ** Grouping *)

Section GroupByFacts.

Variable K : Type.
Variable eqb : K -> K -> bool.
Variable leb : K -> K -> bool.
Hypothesis eqb_eq : forall a b, eqb a b = true <-> a = b.

Lemma unique_In (k : K) (ks : list K) : In k (unique eqb ks) <-> In k ks.
Proof.
  induction ks as [| k0 t IH]; simpl; [reflexivity |].
  rewrite filter_In, IH. split.
  - intros [E | [I _]]; auto.
  - intros [E | I]; auto.
    destruct (eqb k0 k) eqn:E; [left; now apply eqb_eq |].
    right. split; trivial.
Qed.

Lemma unique_NoDup (ks : list K) : NoDup (unique eqb ks).
Proof.
  induction ks as [| k t IH]; simpl; constructor.
  - rewrite filter_In. intros [_ E].
    rewrite (proj2 (eqb_eq k k) eq_refl) in E. discriminate.
  - now apply NoDup_filter.
Qed.

Lemma present_In (k : K) (ks : list (option K)) :
  In k (present ks) <-> In (Some k) ks.
Proof.
  induction ks as [| [k' |] t IH]; simpl; [reflexivity | |].
  - rewrite IH. split; intros [E | I]; auto; left; congruence.
  - rewrite IH. split; [auto | intros [E | I]; [discriminate | trivial]].
Qed.

Lemma groupby_keys (key : row -> option K) (frame : DataFrame) :
  map fst (groupby eqb leb key frame)
  = sort leb (unique eqb (present (map key frame))).
Proof.
  unfold groupby. rewrite map_map. simpl. apply map_id.
Qed.

Lemma groupby_NoDup (key : row -> option K) (frame : DataFrame) :
  NoDup (map fst (groupby eqb leb key frame)).
Proof.
  rewrite groupby_keys.
  eapply Permutation_NoDup; [apply Permutation_sym, sort_perm |].
  apply unique_NoDup.
Qed.

Lemma groupby_In_key (key : row -> option K) (frame : DataFrame) (k : K) :
  In k (map fst (groupby eqb leb key frame)) <->
  exists r, In r frame /\ key r = Some k.
Proof.
  rewrite groupby_keys.
  rewrite (Permutation_in' (eq_refl k) (sort_perm K leb _)).
  rewrite unique_In, present_In, in_map_iff.
  split; intros (r & H1 & H2); exists r; auto.
Qed.

Lemma groupby_group (key : row -> option K) (frame : DataFrame)
      (k : K) (g : DataFrame) :
  In (k, g) (groupby eqb leb key frame) ->
  g = filter (has_key eqb key k) frame.
Proof.
  unfold groupby. rewrite in_map_iff. intros (k' & E & _).
  now injection E as -> <-.
Qed.

Lemma agg_keys (B : Type) (f : list value -> B) (p : pollutant)
      (groups : list (K * DataFrame)) :
  map fst (agg f p groups) = map fst groups.
Proof. unfold agg. rewrite map_map. reflexivity. Qed.

Lemma agg_In (B : Type) (f : list value -> B) (p : pollutant)
      (key : row -> option K) (frame : DataFrame) (k : K) (b : B) :
  In (k, b) (agg f p (groupby eqb leb key frame)) ->
  b = f (map (column p) (filter (has_key eqb key k) frame)).
Proof.
  unfold agg. rewrite in_map_iff. intros ([k' g] & E & I).
  simpl in E. injection E as -> <-.
  now rewrite (groupby_group _ _ _ _ I).
Qed.

End GroupByFacts.

(* ================================================================== *)
(** ** Column statistics *)

Module StatsFacts.

Import Stats.
Open Scope Q_scope.

Lemma count_cons (q : Q) (qs : list Q) : count (q :: qs) == count qs + 1.
Proof.
  unfold count. simpl List.length. rewrite Nat2Z.inj_succ.
  unfold Z.succ. rewrite inject_Z_plus. reflexivity.
Qed.

Lemma count_nonneg (qs : list Q) : 0 <= count qs.
Proof.
  unfold count. change 0 with (inject_Z 0). rewrite <- Zle_Qle. lia.
Qed.

Lemma count_pos (q : Q) (qs : list Q) : 0 < count (q :: qs).
Proof. rewrite count_cons. pose proof (count_nonneg qs). lra. Qed.

(** [dropna] keeps exactly the readings. *)
Lemma dropna_In (q : Q) (col : list value) :
  In q (dropna col) <-> In (Num q) col.
Proof.
  induction col as [| [| x] col IH]; simpl; [reflexivity | |].
  - rewrite IH. split; [auto | intros [E | I]; [discriminate | trivial]].
  - rewrite IH. split; intros [E | I]; auto; left; congruence.
Qed.

Lemma dropna_all_missing (col : list value) :
  dropna col = [] <-> forall v, In v col -> v = NaN.
Proof.
  induction col as [| [| x] col IH]; simpl.
  - split; [intros _ v [] | trivial].
  - rewrite IH. split; [intros H v [<- | I]; auto | auto].
  - split; [discriminate |]. intro H.
    specialize (H (Num x) (or_introl eq_refl)). discriminate.
Qed.

Lemma mean_is_mean (col : list value) : is_mean_of col (mean col).
Proof.
  unfold is_mean_of, mean.
  destruct (dropna col) as [| q qs]; trivial.
  eexists. split; [reflexivity |].
  unfold Qmean. pose proof (count_pos q qs).
  field. lra.
Qed.

Lemma fold_Qmax (qs : list Q) (q : Q) :
  In (fold_left Qmax qs q) (q :: qs) /\
  forall x, In x (q :: qs) -> x <= fold_left Qmax qs q.
Proof.
  revert q. induction qs as [| y qs IH]; intro q; simpl.
  - split; auto. intros x [<- | []]. apply Qle_refl.
  - destruct (IH (Qmax q y)) as [I U]. split.
    + destruct I as [E | I]; auto.
      rewrite <- E. unfold Qmax. destruct (Qle_bool q y); auto.
    + assert (L : q <= Qmax q y /\ y <= Qmax q y).
      { unfold Qmax. destruct (Qle_bool q y) eqn:E.
        - apply Qle_bool_iff in E. split; [trivial | apply Qle_refl].
        - apply Qle_bool_false in E.
          split; [apply Qle_refl | now apply Qlt_le_weak]. }
      intros x [<- | [<- | I']].
      * apply Qle_trans with (Qmax q y); [tauto | apply U; now left].
      * apply Qle_trans with (Qmax q y); [tauto | apply U; now left].
      * apply U. now right.
Qed.

Lemma fold_Qmin (qs : list Q) (q : Q) :
  In (fold_left Qmin qs q) (q :: qs) /\
  forall x, In x (q :: qs) -> fold_left Qmin qs q <= x.
Proof.
  revert q. induction qs as [| y qs IH]; intro q; simpl.
  - split; auto. intros x [<- | []]. apply Qle_refl.
  - destruct (IH (Qmin q y)) as [I U]. split.
    + destruct I as [E | I]; auto.
      rewrite <- E. unfold Qmin. destruct (Qle_bool q y); auto.
    + assert (L : Qmin q y <= q /\ Qmin q y <= y).
      { unfold Qmin. destruct (Qle_bool q y) eqn:E.
        - apply Qle_bool_iff in E. split; [apply Qle_refl | trivial].
        - apply Qle_bool_false in E.
          split; [now apply Qlt_le_weak | apply Qle_refl]. }
      intros x [<- | [<- | I']].
      * apply Qle_trans with (Qmin q y); [apply U; now left | tauto].
      * apply Qle_trans with (Qmin q y); [apply U; now left | tauto].
      * apply U. now right.
Qed.

Lemma max_is_max (col : list value) : is_max_of col (max col).
Proof.
  unfold is_max_of, max.
  destruct (dropna col) as [| q qs]; trivial.
  eexists. split; [reflexivity |]. apply fold_Qmax.
Qed.

Lemma min_is_min (col : list value) : is_min_of col (min col).
Proof.
  unfold is_min_of, min.
  destruct (dropna col) as [| q qs]; trivial.
  eexists. split; [reflexivity |]. apply fold_Qmin.
Qed.

Lemma Qsum_squares_nonneg (m : Q) (qs : list Q) :
  0 <= Qsum (map (fun x => (x - m) * (x - m)) qs).
Proof.
  unfold Qsum. induction qs as [| q qs IH]; simpl; [lra |].
  assert (0 <= (q - m) * (q - m)) by (generalize (q - m); intro x; nra).
  lra.
Qed.

Lemma variance_nonneg (a b : Q) (qs : list Q) : 0 <= variance (a :: b :: qs).
Proof.
  unfold variance.
  apply Qle_shift_div_l.
  - rewrite !count_cons. pose proof (count_nonneg qs). lra.
  - rewrite Qmult_0_l. apply Qsum_squares_nonneg.
Qed.

(** [std] is missing unless at least two readings are left. *)
Lemma std_missing (col : list value) :
  (List.length (dropna col) <= 1)%nat <-> std col = Missing.
Proof.
  unfold std. destruct (dropna col) as [| a [| b qs]]; simpl.
  - split; [reflexivity | lia].
  - split; [reflexivity | lia].
  - split; [lia | discriminate].
Qed.

End StatsFacts.

(* ================================================================== *)
(** ** District means *)

Lemma district_avg_perm (view : DataFrame) (p : pollutant) :
  Permutation
    (district_avg view p)
    (agg Stats.mean p (groupby String.eqb String.leb district_key view)).
Proof. apply sort_values_desc_perm. Qed.

Lemma district_groups_In (view : DataFrame) (d : string) :
  In d (map fst (groupby String.eqb String.leb district_key view)) <->
  exists r, In r view /\ district r = d.
Proof.
  rewrite (groupby_In_key string String.eqb String.leb String.eqb_eq).
  unfold district_key.
  split; intros (r & I & E); exists r; split; congruence.
Qed.

(** C5.  [district_avg] has one entry per district that has a row in the
    view, and no other; the entry of a district is the arithmetic mean of
    the non-missing readings of its rows (missing when all of them are
    missing); entries come in descending order of the mean, missing means
    last; and on a filtered view every district listed is one of the
    selected districts. *)
Theorem district_avg_spec (view : DataFrame) (p : pollutant) :
  NoDup (map fst (district_avg view p)) /\
  (forall d, In d (map fst (district_avg view p)) <->
             exists r, In r view /\ district r = d) /\
  (forall d v, In (d, v) (district_avg view p) ->
               Stats.is_mean_of (map (column p) (rows_of d view)) v /\
               ((forall r, In r (rows_of d view) -> column p r = NaN) ->
                v = NaN)) /\
  StronglySorted (fun a b => descending (snd a) (snd b))
                 (district_avg view p) /\
  (forall data selected_year selected_districts d,
      view = filtered_data data selected_year selected_districts ->
      In d (map fst (district_avg view p)) ->
      In d selected_districts).
Proof.
  assert (KEYS : forall d, In d (map fst (district_avg view p)) <->
                           exists r, In r view /\ district r = d).
  { intro d.
    rewrite (Permutation_in' (eq_refl d)
               (Permutation_map fst (district_avg_perm view p))).
    rewrite agg_keys. apply district_groups_In. }
  assert (MEAN : forall d v, In (d, v) (district_avg view p) ->
                   v = Stats.mean (map (column p) (rows_of d view))).
  { intros d v I.
    apply (Permutation_in _ (district_avg_perm view p)) in I.
    apply (agg_In string String.eqb String.leb _ Stats.mean p
                  district_key view d v I). }
  split; [| split; [| split; [| split]]].
  - eapply Permutation_NoDup.
    + apply Permutation_sym, Permutation_map, district_avg_perm.
    + rewrite agg_keys. apply groupby_NoDup. exact String.eqb_eq.
  - exact KEYS.
  - intros d v I. rewrite (MEAN d v I). split.
    + apply StatsFacts.mean_is_mean.
    + intro H. unfold Stats.mean.
      replace (Stats.dropna (map (column p) (rows_of d view))) with (@nil Q);
        trivial.
      symmetry. apply StatsFacts.dropna_all_missing.
      intros x Ix. apply in_map_iff in Ix. destruct Ix as (r & <- & Ir). auto.
  - apply sort_values_desc_sorted.
  - intros data y ds d -> I. apply KEYS in I. destruct I as (r & I & <-).
    unfold filtered_data in I. apply filter_In in I. destruct I as [_ I].
    apply andb_true_iff in I. now apply isin_In.
Qed.

(* ================================================================== *)
(** ** Rounding to one decimal *)

Module RoundFacts.

Import Stats.
Open Scope Q_scope.

Lemma inject_Z_le (a b : Z) : (a <= b)%Z -> inject_Z a <= inject_Z b.
Proof. intro H. now rewrite <- Zle_Qle. Qed.

(** [rint] is within one half of its argument. *)
Lemma rint_spec (q : Q) :
  inject_Z (rint q) - (1 # 2) <= q <= inject_Z (rint q) + (1 # 2).
Proof.
  unfold rint.
  pose proof (Qfloor_le q) as L. pose proof (Qlt_floor q) as U.
  rewrite inject_Z_plus in U. change (inject_Z 1) with 1 in U.
  destruct (Qcompare_spec (q - inject_Z (Qfloor q)) (1 # 2)) as [E | E | E].
  - destruct (Z.even (Qfloor q)).
    + lra.
    + rewrite inject_Z_plus. change (inject_Z 1) with 1. lra.
  - lra.
  - rewrite inject_Z_plus. change (inject_Z 1) with 1. lra.
Qed.

Lemma half_parity (s : Z) :
  s = (2 * (s / 2) + (if Z.even s then 0 else 1))%Z.
Proof. rewrite <- Zmod_even. apply Z.div_mod. lia. Qed.

(** [rint_sqrt x] is within one half of the square root of [x], stated on
    squares: with [k] the result, [(k - 1/2)^2 <= x <= (k + 1/2)^2], the
    left bound being void when [k] is 0. *)
Lemma rint_sqrt_spec (x : Q) :
  0 <= x ->
  (0 <= rint_sqrt x)%Z /\
  4 * x <= inject_Z ((2 * rint_sqrt x + 1) * (2 * rint_sqrt x + 1)) /\
  (rint_sqrt x = 0%Z \/
   inject_Z ((2 * rint_sqrt x - 1) * (2 * rint_sqrt x - 1)) <= 4 * x).
Proof.
  intro P. unfold rint_sqrt.
  set (n := Qfloor (4 * x)).
  assert (N : (0 <= n)%Z).
  { change 0%Z with (Qfloor 0). apply Qfloor_resp_le. lra. }
  pose proof (Qfloor_le (4 * x)) as L. pose proof (Qlt_floor (4 * x)) as U.
  fold n in L, U.
  pose proof (Z.sqrt_spec n N) as S. pose proof (Z.sqrt_nonneg n) as S0.
  set (s := Z.sqrt n) in *. simpl in S. unfold Z.succ in S.
  pose proof (half_parity s) as D.
  set (k := (s / 2)%Z) in *.
  assert (below : forall a : Z, (a <= n)%Z -> inject_Z a <= 4 * x).
  { intros a H. apply Qle_trans with (inject_Z n); trivial.
    now apply inject_Z_le. }
  assert (above : forall a : Z, (n + 1 <= a)%Z -> 4 * x <= inject_Z a).
  { intros a H. apply Qle_trans with (inject_Z (n + 1)).
    - now apply Qlt_le_weak.
    - now apply inject_Z_le. }
  destruct (Z.even s) eqn:Es.
  - split; [lia |]. split.
    + apply above. nia.
    + destruct (Z.eq_dec k 0) as [-> | K]; [now left | right].
      apply below. nia.
  - destruct (Qeq_bool (4 * x) (inject_Z (s * s))) eqn:T.
    + apply Qeq_bool_iff in T.
      destruct (Z.even k).
      * split; [lia |]. split.
        -- rewrite T. apply inject_Z_le. nia.
        -- right. rewrite T. apply inject_Z_le. nia.
      * split; [lia |]. split.
        -- rewrite T. apply inject_Z_le. nia.
        -- right. rewrite T. apply inject_Z_le. nia.
    + split; [lia |]. split.
      * apply above. nia.
      * right. apply below. nia.
Qed.

Lemma inject_Z_square (a b c : Z) :
  inject_Z ((2 * a + b) * (2 * a + c))
  == (2 * inject_Z a + inject_Z b) * (2 * inject_Z a + inject_Z c).
Proof. rewrite inject_Z_mult, !inject_Z_plus, inject_Z_mult. reflexivity. Qed.

Lemma round1_rounded (s : stat) :
  match s with Root x => 0 <= x | _ => True end ->
  rounded1 s (round1 s).
Proof.
  destruct s as [| q | x]; simpl; trivial.
  - intros _. split; [eexists; reflexivity |].
    pose proof (rint_spec (q * 10)) as R.
    set (k := inject_Z (rint (q * 10))) in *.
    assert (E : k / 10 == k * (1 # 10)) by (field; lra).
    rewrite E. lra.
  - intro P. split; [eexists; reflexivity |].
    assert (P' : 0 <= x * 100) by lra.
    destruct (rint_sqrt_spec (x * 100) P') as (K0 & U & L).
    change (2 * rint_sqrt (x * 100) - 1)%Z
      with (2 * rint_sqrt (x * 100) + (-1))%Z in L.
    rewrite inject_Z_square in U.
    apply inject_Z_le in K0.
    change (inject_Z 0) with 0 in K0. change (inject_Z 1) with 1 in U.
    set (k := rint_sqrt (x * 100)) in *.
    assert (E : inject_Z k / 10 == inject_Z k * (1 # 10)) by (field; lra).
    rewrite E. split; [lra |]. split; [nra |].
    destruct L as [-> | L]; [left; reflexivity | right].
    rewrite inject_Z_square in L. change (inject_Z (-1)) with (-(1)) in L.
    nra.
Qed.

End RoundFacts.

(* ================================================================== *)
(** ** Dates *)

Lemma filter_filter (A : Type) (first_mask second_mask : A -> bool)
      (rows : list A) :
  filter second_mask (filter first_mask rows)
  = filter (fun x => first_mask x && second_mask x) rows.
Proof.
  induction rows as [| x rows IH]; simpl; trivial.
  destruct (first_mask x); simpl; [destruct (second_mask x) |];
    now rewrite IH.
Qed.

(** The comparison of dates is the calendar order. *)
Lemma date_leb_le (a b : date) : date_leb a b = true <-> date_le a b.
Proof.
  unfold date_leb, date_le. simpl.
  destruct (Z.compare_spec (d_year a) (d_year b));
    destruct (Z.compare_spec (d_month a) (d_month b));
    destruct (Z.compare_spec (d_day a) (d_day b));
    split; intro G; trivial; try discriminate; try lia.
Qed.

(** The mask of lines 286-289 keeps the rows dated within the range. *)
Lemma in_range_dated (first last : date) (r : row) :
  in_range first last r = true <-> dated_within first last r.
Proof.
  unfold in_range, dated_within, ts_date.
  destruct (timestamp r) as [| t].
  - split; [discriminate | intros (t & E & _); discriminate].
  - rewrite andb_true_iff, !date_leb_le. unfold dt_date. split.
    + intros [A B]. now exists t.
    + intros (t' & E & A & B). injection E as ->. now split.
Qed.

(* ================================================================== *)
(** ** Summary statistics *)

Module SummaryFacts.

Import Stats StatsFacts RoundFacts.
Open Scope Q_scope.

Lemma std_is_std (col : list value) : is_std_of col (std col).
Proof.
  unfold is_std_of, std.
  destruct (dropna col) as [| a [| b qs]]; trivial.
  exists (Qmean (a :: b :: qs)), (variance (a :: b :: qs)).
  assert (C : 1 < count (a :: b :: qs)).
  { rewrite !count_cons. pose proof (count_nonneg qs). lra. }
  repeat split.
  - unfold Qmean. field. lra.
  - unfold variance. field. lra.
  - apply variance_nonneg.
Qed.

Lemma describe_describes (col : list value) : describes col (describe col).
Proof.
  unfold describes, describe; simpl. repeat split.
  - eexists. split; [reflexivity | apply mean_is_mean].
  - eexists. split; [reflexivity | apply max_is_max].
  - eexists. split; [reflexivity | apply min_is_min].
  - apply std_is_std.
Qed.

Lemma dropna_length (col : list value) :
  (List.length (dropna col) <= List.length col)%nat.
Proof.
  induction col as [| [| q] col IH]; simpl; lia.
Qed.

(** Each cell of a rounded row is the rounding of the cell above it. *)
Lemma round_summary_rounded (col : list value) :
  rounded1 (s_mean (describe col)) (s_mean (round_summary (describe col))) /\
  rounded1 (s_max (describe col)) (s_max (round_summary (describe col))) /\
  rounded1 (s_min (describe col)) (s_min (round_summary (describe col))) /\
  rounded1 (s_std (describe col)) (s_std (round_summary (describe col))).
Proof.
  simpl. repeat split.
  - apply round1_rounded. now destruct (mean col).
  - apply round1_rounded. now destruct (max col).
  - apply round1_rounded. now destruct (min col).
  - apply round1_rounded. unfold std.
    destruct (dropna col) as [| a [| b qs]]; trivial.
    apply variance_nonneg.
Qed.

Lemma in_range_spec (first last : date) (r : row) :
  in_range first last r = true <->
  exists t, timestamp r = TS t /\
            date_leb first (dt_date t) = true /\
            date_leb (dt_date t) last = true.
Proof.
  unfold in_range. destruct (timestamp r) as [| t]; simpl.
  - split; [discriminate | intros (t & E & _); discriminate].
  - rewrite andb_true_iff. split.
    + intros [A B]. now exists t.
    + intros (t' & E & A & B). injection E as ->. now split.
Qed.

Lemma summarize_keys (frame : DataFrame) (p : pollutant) :
  map fst (summarize frame p)
  = map fst (groupby String.eqb String.leb district_key frame).
Proof.
  unfold summarize. rewrite map_map. simpl.
  apply (agg_keys string (summary stat) describe p).
Qed.

Lemma summarize_In (frame : DataFrame) (p : pollutant)
      (d : string) (s : summary value) :
  In (d, s) (summarize frame p) ->
  s = round_summary (describe (map (column p) (rows_of d frame))).
Proof.
  unfold summarize. rewrite in_map_iff. intros ([d' st] & E & I).
  simpl in E. injection E as -> <-. f_equal.
  apply (agg_In string String.eqb String.leb (summary stat) describe p
                district_key frame d st I).
Qed.

(** C8.  With a complete date range [(first, last)], [summary_stats]
    returns a table with one row per district that has a row of the view
    dated from [first] to [last], and no other row.  The row of a district
    is computed from exactly the rows of the view that are of that district
    and dated within the range: it holds the mean, the maximum, the minimum
    and the sample standard deviation of their non-missing readings, each
    rounded to one decimal; the standard deviation is missing, not zero,
    for a group of a single row. *)
Theorem summary_stats_spec (view : DataFrame) (p : pollutant)
        (first last : date) :
  exists table,
    summary_stats view p [first; last] = Return table /\
    NoDup (map fst table) /\
    (forall d, In d (map fst table) <->
               exists r, In r view /\ dated_within first last r /\
                         district r = d) /\
    (forall d s, In (d, s) table ->
       exists rows,
         (exists keep : row -> bool,
             rows = filter keep view /\
             forall r, keep r = true <->
                       district r = d /\ dated_within first last r) /\
         (exists st, describes (map (column p) rows) st /\
                     rounded1 (s_mean st) (s_mean s) /\
                     rounded1 (s_max st) (s_max s) /\
                     rounded1 (s_min st) (s_min s) /\
                     rounded1 (s_std st) (s_std s)) /\
         ((List.length rows <= 1)%nat ->
          s_std s = NaN /\ ~ same_value (s_std s) (Num 0))).
Proof.
  exists (summarize (filter (in_range first last) view) p).
  split; [reflexivity |]. split; [| split].
  - rewrite summarize_keys. apply groupby_NoDup. exact String.eqb_eq.
  - intro d. rewrite summarize_keys, district_groups_In.
    split; intros (r & I & E); exists r.
    + apply filter_In in I. destruct I as [I R].
      apply in_range_dated in R. tauto.
    + destruct E as [R E]. apply in_range_dated in R.
      split; [apply filter_In |]; tauto.
  - intros d s I. apply summarize_In in I.
    set (rows := rows_of d (filter (in_range first last) view)) in *.
    exists rows. split; [| split].
    + exists (fun r => in_range first last r && String.eqb (district r) d).
      split; [apply filter_filter |].
      intro r. rewrite andb_true_iff, in_range_dated, String.eqb_eq. tauto.
    + subst s. exists (describe (map (column p) rows)).
      split; [apply describe_describes |]. apply round_summary_rounded.
    + intro H. subst s. simpl.
      assert (E : std (map (column p) rows) = Missing).
      { apply std_missing.
        pose proof (dropna_length (map (column p) rows)) as L.
        rewrite length_map in L. lia. }
      rewrite E. simpl. split; [reflexivity | tauto].
Qed.

End SummaryFacts.

(* ================================================================== *)
(** ** Degenerate views: empty, or without a reading *)

(** On the empty view the latest snapshot and the three group means are
    empty: none of the four expressions (lines 151, 171, 187, 200) has a
    case that raises. *)
Lemma aggregates_on_empty (p : pollutant) :
  latest_data [] = [] /\
  district_avg [] p = [] /\
  monthly_trend [] p = [] /\
  hourly_pattern [] p = [].
Proof. repeat split. Qed.

Lemma summarize_empty (p : pollutant) : summarize [] p = [].
Proof. reflexivity. Qed.

Lemma mean_all_missing (col : list value) :
  (forall v, In v col -> v = NaN) -> Stats.mean col = NaN.
Proof.
  intro H. unfold Stats.mean.
  now rewrite (proj2 (StatsFacts.dropna_all_missing col) H).
Qed.

(** On a view without a reading of the pollutant every group mean is
    missing, whatever the grouping key. *)
Lemma group_means_all_missing (K : Type) (eqb leb : K -> K -> bool)
      (key : row -> option K) (view : DataFrame) (p : pollutant)
      (k : K) (v : value) :
  (forall r, In r view -> column p r = NaN) ->
  In (k, v) (agg Stats.mean p (groupby eqb leb key view)) ->
  v = NaN.
Proof.
  intros H I. apply (agg_In K eqb leb _ Stats.mean p key view k v) in I.
  subst v. apply mean_all_missing.
  intros x Ix. apply in_map_iff in Ix. destruct Ix as (r & <- & Ir).
  apply filter_In in Ir. apply H, Ir.
Qed.

(** On a view without a single reading of the pollutant the three group
    means still have their groups, each with a missing mean. *)
Lemma aggregates_all_missing (view : DataFrame) (p : pollutant) :
  (forall r, In r view -> column p r = NaN) ->
  (forall d v, In (d, v) (district_avg view p) -> v = NaN) /\
  (forall k v, In (k, v) (monthly_trend view p) -> v = NaN) /\
  (forall h v, In (h, v) (hourly_pattern view p) -> v = NaN).
Proof.
  intro H. repeat split.
  - intros d v I.
    apply (Permutation_in _ (district_avg_perm view p)) in I.
    now apply (group_means_all_missing _ _ _ _ _ _ _ _ H I).
  - intros k v I. now apply (group_means_all_missing _ _ _ _ _ _ _ _ H I).
  - intros h v I. now apply (group_means_all_missing _ _ _ _ _ _ _ _ H I).
Qed.

(** The guard of line 153 covers the empty view. *)
Lemma current_status_empty (p : pollutant) : current_status [] p = Return None.
Proof. reflexivity. Qed.

Lemma max_all_missing (col : list value) :
  (forall v, In v col -> v = NaN) -> Stats.max col = NaN.
Proof.
  intro H. unfold Stats.max.
  now rewrite (proj2 (StatsFacts.dropna_all_missing col) H).
Qed.

Lemma value_eqb_NaN_r (v : value) : value_eqb v NaN = false.
Proof. now destruct v. Qed.

Lemma filter_none (A : Type) (f : A -> bool) (l : list A) :
  (forall a, f a = false) -> filter f l = [].
Proof.
  intro H. induction l as [| a l IH]; simpl; trivial. now rewrite H.
Qed.

(** When the latest snapshot has rows but no reading of the pollutant, the
    lookup of the district of the maximum (line 163) indexes an empty
    selection. *)
Lemma current_status_all_missing (view : DataFrame) (p : pollutant) :
  latest_data view <> [] ->
  (forall r, In r (latest_data view) -> column p r = NaN) ->
  current_status view p = Raise IndexError.
Proof.
  intros NE H. unfold current_status.
  destruct (latest_data view) as [| r0 latest] eqn:E; [contradiction |].
  simpl empty. cbv iota.
  rewrite max_all_missing.
  - rewrite (filter_none row (fun r => value_eqb (column p r) NaN)); trivial.
    intro a. apply value_eqb_NaN_r.
  - intros v I. apply in_map_iff in I. destruct I as (r & <- & I). auto.
Qed.

(** A date range that the widget returns half-selected (one date) cannot
    be indexed at 1 (line 288). *)
Lemma summary_stats_half_range (view : DataFrame) (p : pollutant) (d : date) :
  summary_stats view p [d] = Raise IndexError.
Proof. reflexivity. Qed.

(* ================================================================== *)
(** ** Scenarios *)

Module ScenarioFacts.

Import Scenario.
Open Scope string_scope.

(** The round trip of one record through filter, grade and district mean. *)
Example round_trip :
  filtered_data [gangnam] 2022 ["강남구"] = [gangnam] /\
  Grade.get_air_quality_grade (Num 25) "PM10" = Grade.Good /\
  district_avg [gangnam] PM10 = [("강남구", Num 25)].
Proof. repeat split. Qed.

(** A missing reading is left out of the mean: 40, not 20. *)
Example missing_excluded : district_avg junggu PM10 = [("중구", Num 40)].
Proof. reflexivity. Qed.

(** One unreadable source of three: two sources loaded, one failure. *)
Example one_bad_source :
  map district (fst (load_from disk parse sources)) = ["중구"; "강남구"] /\
  snd (load_from disk parse sources) = [read_failure "b.csv"].
Proof. split; reflexivity. Qed.

(** No readable source: the empty table and one failure per source. *)
Example all_sources_fail :
  load_from (fun _ => None) parse sources
  = ([], map read_failure ["a.csv"; "b.csv"; "c.csv"]).
Proof. reflexivity. Qed.

End ScenarioFacts.

(** C3 (the case the code misses).  On a view whose latest snapshot has a
    row but no PM10 reading, the guard [if not latest_data.empty] lets the
    status block run: the snapshot is the view itself, its maximum is NaN,
    the selection [latest_data[latest_data[pollutant] == max_value]] is
    empty, and [.iloc[0]] on it raises IndexError instead of a result. *)
Theorem status_block_raises :
  latest_data Scenario.unread = Scenario.unread /\
  empty (latest_data Scenario.unread) = false /\
  Stats.max (map (column PM10) (latest_data Scenario.unread)) = NaN /\
  filter (fun r => value_eqb (column PM10 r) NaN) (latest_data Scenario.unread)
    = [] /\
  current_status Scenario.unread PM10 = Raise IndexError.
Proof. repeat split. Qed.

(* ================================================================== *)
(** ** The theorems on the scenarios *)

(** A reading of 25 is Good for PM10 and Moderate for PM2.5. *)
Lemma grade_thresholds_witness :
  Grade.get_air_quality_grade (Num 25) "PM10" = Grade.Good /\
  Grade.get_air_quality_grade (Num 25) "PM2.5" = Grade.Moderate.
Proof.
  destruct GradeFacts.grade_thresholds as (T10 & T25 & _).
  split.
  - apply (proj1 (T10 25)). unfold Qle; simpl; lia.
  - apply (proj1 (proj2 (T25 25))). unfold Qlt, Qle; simpl; lia.
Defined.

(** The 강남구 row is kept when 강남구 is selected; nothing is kept when no
    district is. *)
Lemma filtered_data_spec_witness :
  In Scenario.gangnam
     (filtered_data (Scenario.gangnam :: Scenario.junggu) 2022 ["강남구"%string]) /\
  filtered_data (Scenario.gangnam :: Scenario.junggu) 2022 [] = [].
Proof.
  destruct (filtered_data_spec (Scenario.gangnam :: Scenario.junggu) 2022
                               ["강남구"%string]) as (_ & M & Z).
  split; [| exact Z].
  apply M. simpl. auto.
Defined.

(** With two districts measured at 10h and 11h, the 11h row of 강남구 is a
    latest row. *)
Lemma latest_data_spec_witness :
  is_latest Scenario.two_districts
            (Scenario.reading 11 "강남구" (Num (71 # 2)) (Num 12)) /\
  latest_data Scenario.two_districts <> [].
Proof.
  destruct (latest_data_spec Scenario.two_districts) as (_ & _ & M & N).
  split.
  - refine (proj2 (proj1 (M _) _)).
    unfold latest_data, Scenario.two_districts. simpl. auto.
  - apply N. exists (Scenario.reading 10 "중구" (Num 40) NaN).
    split; [| discriminate].
    simpl. auto.
Defined.

(** Three sources, the second unreadable: b.csv is reported once, and the
    table has the parseable row of a.csv followed by the row of c.csv. *)
Lemma load_from_spec_witness :
  snd (load_from Scenario.disk Scenario.parse Scenario.sources)
    = [read_failure "b.csv"] /\
  map (fun r => (timestamp r, district r, pm10 r, pm25 r))
      (fst (load_from Scenario.disk Scenario.parse Scenario.sources))
    = [ (TS (Scenario.at_hour 10), "중구"%string, Num 40, NaN);
        (TS (Scenario.at_hour 11), "강남구"%string, Num 25, Num 10) ].
Proof.
  destruct (load_from_spec Scenario.disk Scenario.parse Scenario.sources)
    as (E & _ & T & _).
  split; [rewrite E | rewrite T]; reflexivity.
Defined.

(** Of the three rows on the disk, the one whose text is no date is gone
    and the two others are consistent. *)
Lemma load_from_consistent_witness :
  Forall (fun r => timestamp r <> NaT /\ consistent r)
         (fst (load_from Scenario.disk Scenario.parse Scenario.sources)) /\
  List.length (fst (load_from Scenario.disk Scenario.parse Scenario.sources))
    = 2%nat.
Proof.
  split; [| reflexivity].
  apply Forall_forall.
  exact (proj1 (load_from_consistent Scenario.disk Scenario.parse
                                     Scenario.sources)).
Defined.

(** The mean of 중구 over the readings 40 and missing is 40. *)
Lemma district_avg_spec_witness :
  district_avg Scenario.junggu PM10 = [("중구"%string, Num 40)] /\
  Stats.is_mean_of
    (map (column PM10) (rows_of "중구" Scenario.junggu)) (Num 40).
Proof.
  split; [reflexivity |].
  apply (proj1 (proj2 (proj2 (district_avg_spec Scenario.junggu PM10)))
               "중구"%string (Num 40)).
  left. reflexivity.
Defined.

(** The single row of 강남구, dated 1 June 2022, is in the table of the
    range from 1 June to 1 June, and has no standard deviation. *)
Lemma summary_stats_spec_witness :
  exists table,
    summary_stats [Scenario.gangnam] PM10 [Scenario.june1; Scenario.june1]
      = Return table /\
    In "강남구"%string (map fst table) /\
    forall s, In ("강남구"%string, s) table -> s_std s = NaN.
Proof.
  destruct (SummaryFacts.summary_stats_spec
              [Scenario.gangnam] PM10 Scenario.june1 Scenario.june1)
    as (table & E & _ & K & R).
  exists table. split; [exact E |]. split.
  - apply K. exists Scenario.gangnam. split; [now left |].
    split; [| reflexivity].
    exists (Scenario.at_hour 10). split; [reflexivity |].
    unfold date_le. simpl. lia.
  - intros s I. destruct (R _ s I) as (rows & (keep & -> & _) & _ & S1).
    apply S1. simpl. destruct (keep Scenario.gangnam); simpl; lia.
Defined.

(** The district mean of a view without a PM10 reading: one entry, missing. *)
Lemma aggregates_all_missing_witness :
  Forall (fun e => snd e = NaN) (district_avg Scenario.unread PM10) /\
  map fst (district_avg Scenario.unread PM10) = ["중구"%string].
Proof.
  split; [| reflexivity].
  apply Forall_forall. intros [d v] I.
  refine (proj1 (aggregates_all_missing Scenario.unread PM10 _) d v I).
  intros r [<- | []]. reflexivity.
Defined.

(* ================================================================== *)
(** ** The status block, case by case *)

Module StatusFacts.

Import Stats StatsFacts.
Open Scope Q_scope.

Lemma reading_row (p : pollutant) (rows : DataFrame) (q : Q) :
  In q (dropna (map (column p) rows)) ->
  exists r, In r rows /\ column p r = Num q.
Proof.
  rewrite dropna_In, in_map_iff. intros (r & E & I). now exists r.
Qed.

Lemma row_reading (p : pollutant) (rows : DataFrame) (r : row) (q : Q) :
  In r rows -> column p r = Num q -> In q (dropna (map (column p) rows)).
Proof.
  intros I E. apply dropna_In. rewrite <- E. now apply in_map.
Qed.

(** Indexing a selection at 0 gives its first row, when a row is selected. *)
Lemma iloc0_filter (A B : Type) (f : A -> bool) (g : A -> B) (l : list A) :
  (exists a, In a l /\ f a = true) ->
  exists a, iloc0 (map g (filter f l)) = Return (g a) /\ In a l /\ f a = true.
Proof.
  intros (a & I & E).
  assert (F : In a (filter f l)) by (apply filter_In; auto).
  destruct (filter f l) as [| b t] eqn:X; [contradiction |].
  exists b. simpl. split; trivial.
  apply filter_In. rewrite X. now left.
Qed.

Lemma latest_timestamp (view : DataFrame) (r : row) :
  In r (latest_data view) ->
  timestamp r = ts_max (map timestamp view) /\ timestamp r <> NaT.
Proof.
  unfold latest_data. rewrite filter_In. intros [_ E].
  destruct (timestamp r) as [| t]; [discriminate |].
  destruct (ts_max (map timestamp view)) as [| m]; [discriminate |].
  simpl in E. apply dt_eqb_eq in E. subst. split; [reflexivity | discriminate].
Qed.

(** What the status block does, in each of its three outcomes: skipped on
    an empty snapshot; IndexError exactly when the snapshot has rows but no
    reading of the pollutant; and otherwise a status whose minimum and
    maximum are readings of the snapshot that bound every reading of it,
    named with a district where they were measured, together with the
    grade of the mean that is displayed (whatever that mean is) and the
    instant of the snapshot, which is the latest instant of the view. *)
Theorem current_status_spec (view : DataFrame) (p : pollutant) :
  match current_status view p with
  | Raise e =>
      e = IndexError /\
      latest_data view <> [] /\
      forall r, In r (latest_data view) -> column p r = NaN
  | Return None => latest_data view = []
  | Return (Some st) =>
      exists lo hi,
        min_value st = Num lo /\ max_value st = Num hi /\
        lo <= hi /\
        (forall r q, In r (latest_data view) -> column p r = Num q ->
                     lo <= q <= hi) /\
        (exists r, In r (latest_data view) /\ district r = max_district st /\
                   value_eqb (column p r) (Num hi) = true) /\
        (exists r, In r (latest_data view) /\ district r = min_district st /\
                   value_eqb (column p r) (Num lo) = true) /\
        avg_grade st
          = Grade.get_air_quality_grade (avg_value st) (pollutant_name p) /\
        measured_at st = ts_max (map timestamp view) /\
        measured_at st <> NaT
  end.
Proof.
  unfold current_status.
  destruct (latest_data view) as [| r0 latest] eqn:L; [reflexivity |].
  simpl empty. cbv iota.
  set (rows := r0 :: latest) in *.
  unfold Stats.max, Stats.min.
  destruct (dropna (map (column p) rows)) as [| q qs] eqn:D.
  - (* no reading: the selection for the maximum is empty *)
    rewrite (filter_none row (fun r => value_eqb (column p r) NaN));
      [| intro a; apply value_eqb_NaN_r].
    simpl. split; [reflexivity |]. split; [discriminate |].
    intros r I. apply (proj1 (dropna_all_missing (map (column p) rows)) D).
    now apply in_map.
  - destruct (fold_Qmax qs q) as [Ihi Uhi].
    destruct (fold_Qmin qs q) as [Ilo Ulo].
    set (hi := fold_left Qmax qs q) in *.
    set (lo := fold_left Qmin qs q) in *.
    rewrite <- D in Ihi, Ilo.
    destruct (reading_row p rows hi Ihi) as (rh & Irh & Eh).
    destruct (reading_row p rows lo Ilo) as (rl & Irl & El).
    destruct (iloc0_filter row string
                (fun r => value_eqb (column p r) (Num hi)) district rows)
      as (ah & -> & Iah & Fah).
    { exists rh. split; trivial. rewrite Eh. simpl. apply Qeq_bool_refl. }
    destruct (iloc0_filter row string
                (fun r => value_eqb (column p r) (Num lo)) district rows)
      as (al & -> & Ial & Fal).
    { exists rl. split; trivial. rewrite El. simpl. apply Qeq_bool_refl. }
    simpl.
    assert (B : forall x, In x (q :: qs) -> lo <= x <= hi)
      by (intros x I; split; [now apply Ulo | now apply Uhi]).
    exists lo, hi.
    split; [reflexivity |]. split; [reflexivity |].
    split.
    { destruct (B q (or_introl eq_refl)). now apply Qle_trans with q. }
    split.
    { intros r x I E. apply B. rewrite <- D.
      now apply (row_reading p rows r). }
    split; [now exists ah |]. split; [now exists al |].
    split; [reflexivity |].
    apply (latest_timestamp view r0). rewrite L. now left.
Qed.

End StatusFacts.

(* ================================================================== *)
(** ** Key orders *)

Lemma string_compare_trans (s1 s2 s3 : string) :
  String.compare s1 s2 <> Gt -> String.compare s2 s3 <> Gt ->
  String.compare s1 s3 <> Gt.
Proof.
  revert s2 s3.
  induction s1 as [| c1 s1 IH]; intros [| c2 s2] [| c3 s3]; simpl; try easy.
  unfold Ascii.compare.
  destruct (N.compare_spec (Ascii.N_of_ascii c1) (Ascii.N_of_ascii c2)) as [E12 | L12 | L12],
           (N.compare_spec (Ascii.N_of_ascii c2) (Ascii.N_of_ascii c3)) as [E23 | L23 | L23],
           (N.compare_spec (Ascii.N_of_ascii c1) (Ascii.N_of_ascii c3)) as [E13 | L13 | L13];
    try easy; try lia.
  apply IH.
Qed.

Lemma string_leb_trans (a b c : string) :
  String.leb a b = true -> String.leb b c = true -> String.leb a c = true.
Proof.
  unfold String.leb. intros H1 H2.
  pose proof (string_compare_trans a b c) as T.
  destruct (String.compare a b), (String.compare b c), (String.compare a c);
    try discriminate; try reflexivity; exfalso; apply T; easy.
Qed.

Lemma Z_leb_total (a b : Z) : Z.leb a b = true \/ Z.leb b a = true.
Proof. rewrite !Z.leb_le. lia. Qed.

Lemma Z_leb_trans (a b c : Z) :
  Z.leb a b = true -> Z.leb b c = true -> Z.leb a c = true.
Proof. rewrite !Z.leb_le. lia. Qed.

Lemma pair_eqb_eq (a b : Z * string) : pair_eqb a b = true <-> a = b.
Proof.
  destruct a as [m d], b as [m' d']. unfold pair_eqb. simpl.
  rewrite andb_true_iff, Z.eqb_eq, String.eqb_eq.
  split; [intros [-> ->]; reflexivity | intro E; injection E; auto].
Qed.

Lemma pair_leb_total (a b : Z * string) :
  pair_leb a b = true \/ pair_leb b a = true.
Proof.
  destruct a as [m d], b as [m' d']. unfold pair_leb. simpl.
  rewrite (Z.compare_antisym m m').
  destruct (m ?= m')%Z; simpl; auto. apply String.leb_total.
Qed.

Lemma pair_leb_trans (a b c : Z * string) :
  pair_leb a b = true -> pair_leb b c = true -> pair_leb a c = true.
Proof.
  destruct a as [m1 d1], b as [m2 d2], c as [m3 d3]. unfold pair_leb. simpl.
  destruct (Z.compare_spec m1 m2), (Z.compare_spec m2 m3),
           (Z.compare_spec m1 m3); try easy; try lia.
  apply string_leb_trans.
Qed.

(** The order of a row of [monthly_trend]: by month, then by district. *)
Lemma pair_leb_spec (a b : Z * string) :
  pair_leb a b = true <->
  (fst a < fst b)%Z \/ (fst a = fst b /\ String.leb (snd a) (snd b) = true).
Proof.
  unfold pair_leb. destruct (Z.compare_spec (fst a) (fst b)); split;
    try easy; try lia; intuition (try lia; try discriminate).
Qed.

(** A sorted list without repetition is strictly sorted. *)
Lemma sorted_strict (A : Type) (R : A -> A -> Prop) (l : list A) :
  StronglySorted R l -> NoDup l ->
  StronglySorted (fun a b => R a b /\ a <> b) l.
Proof.
  induction 1 as [| a l S IH F]; intro N; constructor.
  - apply IH. now inversion N.
  - inversion N as [| ? ? NI _]; subst.
    apply Forall_forall. intros b I. split.
    + now apply (proj1 (Forall_forall _ _) F).
    + intros ->. contradiction.
Qed.

(** The keys of a group-by: those that occur, each once, in strict
    ascending order. *)
Lemma groupby_keys_sorted (K : Type) (eqb leb : K -> K -> bool)
      (key : row -> option K) (frame : DataFrame) :
  (forall a b, eqb a b = true <-> a = b) ->
  (forall a b, leb a b = true \/ leb b a = true) ->
  (forall a b c, leb a b = true -> leb b c = true -> leb a c = true) ->
  StronglySorted (fun a b => leb a b = true /\ a <> b)
                 (map fst (groupby eqb leb key frame)).
Proof.
  intros E T R. apply sorted_strict.
  - rewrite groupby_keys. now apply sort_sorted.
  - now apply groupby_NoDup.
Qed.

Lemma agg_In_intro (K B : Type) (eqb leb : K -> K -> bool)
      (f : list value -> B) (p : pollutant)
      (key : row -> option K) (frame : DataFrame) (k : K) :
  In k (map fst (groupby eqb leb key frame)) ->
  In (k, f (map (column p) (filter (has_key eqb key k) frame)))
     (agg f p (groupby eqb leb key frame)).
Proof.
  intro I. apply in_map_iff in I. destruct I as ([k' g] & E & I).
  simpl in E. subst k'.
  unfold agg. apply in_map_iff. exists (k, g). split; trivial.
  simpl. now rewrite (groupby_group K eqb leb key frame k g I).
Qed.

(* ================================================================== *)
(** ** Hourly and monthly means *)

Lemma filter_ext_eq (A : Type) (f g : A -> bool) (l : list A) :
  (forall a, f a = g a) -> filter f l = filter g l.
Proof.
  intro H. induction l as [| a l IH]; simpl; trivial.
  now rewrite H, IH.
Qed.

Lemma hour_group (h : Z) (view : DataFrame) :
  filter (has_key Z.eqb hour h) view = rows_at_hour h view.
Proof. reflexivity. Qed.

Lemma month_group (m : Z) (d : string) (view : DataFrame) :
  filter (has_key pair_eqb month_district_key (m, d)) view
  = rows_in_month m d view.
Proof.
  apply filter_ext_eq. intro r.
  unfold has_key, month_district_key. now destruct (month r).
Qed.

(** [hourly_pattern] has one row per hour of the day that occurs in the
    view, in ascending order of the hour; the value of an hour is the mean
    of the non-missing readings of all rows of that hour, whatever their
    district (missing when they have no reading). *)
Theorem hourly_pattern_spec (view : DataFrame) (p : pollutant) :
  StronglySorted Z.lt (map fst (hourly_pattern view p)) /\
  (forall h, In h (map fst (hourly_pattern view p)) <->
             exists r, In r view /\ hour r = Some h) /\
  (forall h v, In (h, v) (hourly_pattern view p) ->
               Stats.is_mean_of (map (column p) (rows_at_hour h view)) v) /\
  (forall r h, In r view -> hour r = Some h ->
               In (h, Stats.mean (map (column p) (rows_at_hour h view)))
                  (hourly_pattern view p)).
Proof.
  unfold hourly_pattern.
  assert (KEYS : forall h,
             In h (map fst (agg Stats.mean p (groupby Z.eqb Z.leb hour view)))
             <-> exists r, In r view /\ hour r = Some h).
  { intro h. rewrite agg_keys.
    apply (groupby_In_key Z Z.eqb Z.leb Z.eqb_eq). }
  split; [| split; [| split]].
  - rewrite agg_keys.
    eapply StronglySorted_ind with
      (P := StronglySorted Z.lt);
      [ constructor
      |
      | apply (groupby_keys_sorted Z Z.eqb Z.leb hour view Z.eqb_eq
                                   Z_leb_total Z_leb_trans) ].
    intros a l _ S F. constructor; trivial.
    eapply Forall_impl; [| exact F]. intros b [L N].
    apply Z.leb_le in L. lia.
  - exact KEYS.
  - intros h v I.
    apply (agg_In Z Z.eqb Z.leb _ Stats.mean p hour view h v) in I.
    subst v. rewrite hour_group. apply StatsFacts.mean_is_mean.
  - intros r h I E. rewrite <- hour_group.
    apply agg_In_intro. rewrite <- agg_keys with (f := Stats.mean) (p := p).
    apply KEYS. now exists r.
Qed.

(** [monthly_trend] has one row per pair of a month and a district that
    occurs in the view, ordered by month and then by district; its value
    is the mean of the non-missing readings of the rows of that month and
    district. *)
Theorem monthly_trend_spec (view : DataFrame) (p : pollutant) :
  StronglySorted
    (fun a b => (fst a < fst b)%Z \/
                (fst a = fst b /\ String.leb (snd a) (snd b) = true /\
                 snd a <> snd b))
    (map fst (monthly_trend view p)) /\
  (forall m d, In (m, d) (map fst (monthly_trend view p)) <->
               exists r, In r view /\ month r = Some m /\ district r = d) /\
  (forall m d v, In (m, d, v) (monthly_trend view p) ->
                 Stats.is_mean_of (map (column p) (rows_in_month m d view)) v).
Proof.
  unfold monthly_trend. split; [| split].
  - rewrite agg_keys.
    eapply StronglySorted_ind with
      (P := StronglySorted
              (fun a b : Z * string =>
                 (fst a < fst b)%Z \/
                 (fst a = fst b /\ String.leb (snd a) (snd b) = true /\
                  snd a <> snd b)));
      [ constructor
      |
      | apply (groupby_keys_sorted (Z * string) pair_eqb pair_leb
                 month_district_key view pair_eqb_eq
                 pair_leb_total pair_leb_trans) ].
    intros a l _ S F. constructor; trivial.
    eapply Forall_impl; [| exact F]. intros b [L N].
    apply pair_leb_spec in L. destruct L as [L | [E L]]; [now left | right].
    repeat split; trivial.
    intro E'. apply N. destruct a, b. simpl in *. congruence.
  - intros m d. rewrite agg_keys.
    rewrite (groupby_In_key (Z * string) pair_eqb pair_leb pair_eqb_eq).
    unfold month_district_key. split.
    + intros (r & I & E). exists r. destruct (month r); [| discriminate].
      injection E as -> <-. auto.
    + intros (r & I & E & <-). exists r. now rewrite E.
  - intros m d v I.
    apply (agg_In (Z * string) pair_eqb pair_leb _ Stats.mean p
                  month_district_key view (m, d) v) in I.
    subst v. rewrite month_group. apply StatsFacts.mean_is_mean.
Qed.

(* ================================================================== *)
(** ** Sidebar options *)

Lemma years_keys (data : DataFrame) :
  years data = map fst (groupby Z.eqb Z.leb year data).
Proof. unfold years. now rewrite groupby_keys. Qed.

(** The last entry of a sorted list is above all the others. *)
Lemma last_is_max (A : Type) (R : A -> A -> Prop) (l : list A) (y : A) :
  StronglySorted R l ->
  nth_error l (List.length l - 1) = Some y ->
  In y l /\ forall x, In x l -> x = y \/ R x y.
Proof.
  induction 1 as [| a l S IH F]; simpl; [discriminate |].
  rewrite Nat.sub_0_r. destruct l as [| b t].
  - simpl. intro E. injection E as <-. split; auto.
    intros x [<- | []]. now left.
  - simpl List.length. simpl nth_error. intro E.
    simpl in IH. rewrite Nat.sub_0_r in IH.
    destruct (IH E) as [I U]. split; [now right |].
    intros x [<- | Ix]; [| now apply U].
    right. now apply (proj1 (Forall_forall _ _) F).
Qed.

Lemma last_exists (A : Type) (l : list A) :
  l <> [] -> exists y, nth_error l (List.length l - 1) = Some y.
Proof.
  intro N. destruct (nth_error l (List.length l - 1)) as [y |] eqn:E.
  - now exists y.
  - apply nth_error_None in E. destruct l; [contradiction | simpl in E; lia].
Qed.

Lemma years_sorted (data : DataFrame) : StronglySorted Z.lt (years data).
Proof.
  rewrite years_keys.
  eapply StronglySorted_ind with (P := StronglySorted Z.lt);
    [ constructor
    |
    | apply (groupby_keys_sorted Z Z.eqb Z.leb year data Z.eqb_eq
                                 Z_leb_total Z_leb_trans) ].
  intros a l _ S F. constructor; trivial.
  eapply Forall_impl; [| exact F]. intros b [L N].
  apply Z.leb_le in L. lia.
Qed.

Lemma years_In (data : DataFrame) (y : Z) :
  In y (years data) <-> exists r, In r data /\ year r = Some y.
Proof.
  rewrite years_keys. apply (groupby_In_key Z Z.eqb Z.leb Z.eqb_eq).
Qed.

Lemma nth_error_last (A : Type) (front : list A) (y : A) :
  nth_error (front ++ [y]) (List.length (front ++ [y]) - 1) = Some y.
Proof.
  rewrite length_app. simpl. rewrite Nat.add_sub.
  rewrite nth_error_app2, Nat.sub_diag; trivial.
Qed.

Lemma sorted_last (A : Type) (R : A -> A -> Prop) (front : list A) (y : A) :
  StronglySorted R (front ++ [y]) -> forall x, In x front -> R x y.
Proof.
  induction front as [| a front IH]; simpl; [easy |].
  intros S x [<- | I].
  - apply StronglySorted_inv in S. destruct S as [_ F].
    apply (proj1 (Forall_forall _ _) F). apply in_or_app. right. now left.
  - apply IH; trivial. now apply StronglySorted_inv in S.
Qed.

(** The years of the sidebar.  On a loaded table (it has rows, and each
    row carries the year of its instant) the years offered are the years
    of the instants of the table, in strictly ascending order, and the
    year shown selected is the last of them, above all the others. *)
Theorem sidebar_options_spec (data : DataFrame) :
  (forall r, In r data -> consistent r) ->
  data <> [] ->
  StronglySorted Z.lt (years data) /\
  (forall y, In y (years data) <->
             exists r t, In r data /\ timestamp r = TS t /\ dt_year t = y) /\
  exists front y,
    years data = front ++ [y] /\
    default_year data = Some y /\
    forall y', In y' front -> (y' < y)%Z.
Proof.
  intros C N.
  split; [apply years_sorted |]. split.
  - intro y. rewrite years_In. split.
    + intros (r & I & E). destruct (C r I) as (t & T & Y & _).
      exists r, t. repeat split; trivial. congruence.
    + intros (r & t & I & T & E). exists r. split; trivial.
      destruct (C r I) as (t' & T' & Y & _). congruence.
  - assert (Y : years data <> []).
    { destruct data as [| r data]; [contradiction |].
      destruct (C r (or_introl eq_refl)) as (t & _ & E & _).
      assert (I : In (dt_year t) (years (r :: data))).
      { apply years_In. exists r. split; [now left | trivial]. }
      intro X. rewrite X in I. contradiction. }
    destruct (exists_last Y) as (front & y & E).
    exists front, y. split; trivial. split.
    + unfold default_year. rewrite E. apply nth_error_last.
    + apply (sorted_last Z Z.lt). rewrite <- E. apply years_sorted.
Qed.

(** The four rows of the scenario are of 2022: it is the year on offer
    and the year shown selected. *)
Lemma sidebar_options_spec_witness :
  In 2022%Z (years Scenario.two_districts) /\
  exists front y,
    years Scenario.two_districts = front ++ [y] /\
    default_year Scenario.two_districts = Some y /\
    forall y', In y' front -> (y' < y)%Z.
Proof.
  destruct (sidebar_options_spec Scenario.two_districts) as (_ & K & D).
  - intros r I. simpl in I.
    destruct I as [<- | [<- | [<- | [<- | []]]]];
      eexists; repeat split.
  - discriminate.
  - split; [| exact D].
    apply K.
    exists (Scenario.reading 10 "중구" (Num 40) NaN), (Scenario.at_hour 10).
    split; [now left | split; reflexivity].
Defined.

Lemma dt_leb_year (a b : datetime) :
  dt_leb a b = true -> (dt_year a <= dt_year b)%Z.
Proof.
  unfold dt_leb, dt_compare, dt_key. simpl.
  destruct (Z.compare_spec (dt_year a) (dt_year b));
    intro L; (lia || discriminate).
Qed.

(** On a table whose rows carry the year of their instant (a loaded
    table), the year shown selected is the year of the most recent
    measurement. *)
Theorem default_year_latest (data : DataFrame) :
  (forall r, In r data -> consistent r) ->
  data <> [] ->
  exists t, ts_max (map timestamp data) = TS t /\
            default_year data = Some (dt_year t).
Proof.
  intros C N.
  destruct (ts_max (map timestamp data)) as [| t] eqn:M.
  - destruct data as [| r data]; [contradiction |].
    destruct (C r (or_introl eq_refl)) as (t & T & _).
    pose proof (ts_max_NaT _ M (timestamp r) (or_introl eq_refl)). congruence.
  - exists t. split; trivial.
    destruct (ts_max_TS _ t M) as [I U].
    apply in_map_iff in I. destruct I as (r & T & I).
    assert (Y : In (dt_year t) (years data)).
    { apply years_In. exists r. split; trivial.
      destruct (C r I) as (t' & T' & E & _). congruence. }
    unfold default_year in *.
    destruct (nth_error (years data) (List.length (years data) - 1))
      as [y |] eqn:E.
    + destruct (last_is_max Z Z.lt (years data) y (years_sorted data) E)
        as [Iy Uy].
      f_equal. apply years_In in Iy. destruct Iy as (r' & I' & E').
      destruct (C r' I') as (t' & T' & E'' & _).
      assert (dt_leb t' t = true) as L by (apply U; rewrite <- T'; now apply in_map).
      apply dt_leb_year in L.
      assert (y = dt_year t') by congruence.
      destruct (Uy (dt_year t) Y); lia.
    + destruct (last_exists Z (years data)) as (y & E').
      * intro X. rewrite X in Y. contradiction.
      * congruence.
Qed.

(** The four rows of the scenario are of 2022, the year of their latest
    instant. *)
Lemma default_year_latest_witness :
  exists t, ts_max (map timestamp Scenario.two_districts) = TS t /\
            default_year Scenario.two_districts = Some (dt_year t).
Proof.
  apply default_year_latest; [| discriminate].
  intros r I. simpl in I.
  destruct I as [<- | [<- | [<- | [<- | []]]]];
    eexists; repeat split.
Defined.

(* ================================================================== *)
(** ** Map markers and colours *)

Module MapFacts.

Import Grade.

Lemma coords_get_In (coords : list (string * (Q * Q))) (d : string)
      (loc : Q * Q) :
  coords_get coords d = Some loc -> In (d, loc) coords.
Proof.
  induction coords as [| [k l] coords IH]; simpl; [discriminate |].
  destruct (String.eqb_spec d k) as [-> | N].
  - intro E. injection E as ->. now left.
  - intro E. right. now apply IH.
Qed.

Lemma district_marker_cases (view : DataFrame) (p : pollutant) (d : string) :
  district_marker view p d = [] /\
  (coords_get district_coords d = None \/ rows_of d view = []) \/
  exists loc r,
    coords_get district_coords d = Some loc /\
    In r view /\ district r = d /\
    district_marker view p d
    = [ {| mk_location := loc;
           mk_district := d;
           mk_avg := Stats.mean (map (column p) (rows_of d view));
           mk_grade := get_air_quality_grade
                         (Stats.mean (map (column p) (rows_of d view)))
                         (pollutant_name p);
           mk_color := marker_color
                         (get_air_quality_grade
                            (Stats.mean (map (column p) (rows_of d view)))
                            (pollutant_name p)) |} ].
Proof.
  unfold district_marker. fold (rows_of d view).
  destruct (coords_get district_coords d) as [loc |]; [| auto].
  destruct (rows_of d view) as [| r t] eqn:E; [auto |].
  right. exists loc, r. repeat split.
  - assert (I : In r (rows_of d view)) by (rewrite E; now left).
    apply filter_In in I. tauto.
  - assert (I : In r (rows_of d view)) by (rewrite E; now left).
    apply filter_In in I. now apply String.eqb_eq.
Qed.

Lemma flat_map_short (A B : Type) (f : A -> list B) (l : list A) :
  (forall a, (List.length (f a) <= 1)%nat) ->
  (List.length (flat_map f l) <= List.length l)%nat.
Proof.
  intro H. induction l as [| a l IH]; simpl; trivial.
  rewrite length_app. specialize (H a). lia.
Qed.

(** The markers of the map.  A selected district gets a marker exactly
    when it is one of the 25 districts with coordinates and has a row in
    the view; the marker sits at the coordinates of the district and shows
    a mean of the district, the grade of that mean and the colour of that
    grade.  A district none of whose rows has a reading is drawn without a
    mean, with the grade of missing data, in red.  No other marker is
    drawn, and never more than one per selected district. *)
Theorem markers_spec (view : DataFrame) (p : pollutant)
        (selected_districts : list string) :
  (forall m, In m (markers view p selected_districts) ->
     In (mk_district m) selected_districts /\
     coords_get district_coords (mk_district m) = Some (mk_location m) /\
     In (mk_district m, mk_location m) district_coords /\
     (exists r, In r view /\ district r = mk_district m) /\
     mk_grade m = get_air_quality_grade (mk_avg m) (pollutant_name p) /\
     mk_color m = marker_color (mk_grade m) /\
     ((forall r, In r view -> district r = mk_district m ->
                 column p r = NaN) ->
      mk_avg m = NaN /\ mk_grade m = NoData /\ mk_color m = "red"%string)) /\
  (forall d r, In d selected_districts ->
     coords_get district_coords d <> None ->
     In r view -> district r = d ->
     exists m, In m (markers view p selected_districts) /\ mk_district m = d) /\
  (List.length (markers view p selected_districts)
   <= List.length selected_districts)%nat.
Proof.
  unfold markers. split; [| split].
  - intros m I. apply in_flat_map in I. destruct I as (d & Id & I).
    destruct (district_marker_cases view p d)
      as [[E _] | (loc & r & C & Ir & Er & E)]; rewrite E in I.
    + contradiction.
    + destruct I as [<- | []].
      cbn [mk_district mk_location mk_avg mk_grade mk_color].
      split; trivial. split; trivial.
      split; [now apply coords_get_In |].
      split; [now exists r |].
      split; trivial. split; trivial.
      intro M.
      assert (X : Stats.mean (map (column p) (rows_of d view)) = NaN).
      { apply mean_all_missing. intros v Iv.
        apply in_map_iff in Iv. destruct Iv as (r' & <- & I').
        apply filter_In in I'. destruct I' as [I' E'].
        apply String.eqb_eq in E'. now apply M. }
      rewrite X. repeat split.
  - intros d r Id C Ir Er.
    destruct (district_marker_cases view p d)
      as [[_ [N | N]] | (loc & r' & _ & _ & _ & E)].
    + contradiction.
    + exfalso. assert (I : In r (rows_of d view)).
      { apply filter_In. split; trivial. now apply String.eqb_eq. }
      rewrite N in I. contradiction.
    + eexists. split.
      * apply in_flat_map. exists d. split; trivial. rewrite E. now left.
      * reflexivity.
  - apply flat_map_short. intro d.
    destruct (district_marker_cases view p d)
      as [[E _] | (loc & r & _ & _ & _ & E)]; rewrite E; simpl; lia.
Qed.

(** A grade is one of the five labels. *)
Lemma grade_cases (v : value) (pollutant : string) :
  (v = NaN /\ get_air_quality_grade v pollutant = NoData) \/
  (v <> NaN /\
   In (get_air_quality_grade v pollutant) [Good; Moderate; Bad; VeryBad]).
Proof.
  destruct v as [| q]; [left; split; reflexivity | right].
  split; [discriminate |].
  unfold get_air_quality_grade. simpl.
  destruct (String.eqb pollutant "PM10");
    repeat match goal with
           | |- context [Qle_bool ?a ?b] => destruct (Qle_bool a b)
           end; simpl; auto.
Qed.

(** The colours.  On the map a district is blue, green or orange for the
    grades Good, Moderate and Bad, and red otherwise: red stands for Very
    Bad and also for a district without a reading.  The colour table of
    [get_grade_color] keeps the two apart: grey is the colour of a missing
    value (and of any string that is no grade), and the four grades have
    four other colours. *)
Theorem colours_spec (v : value) (p : pollutant) :
  (marker_color (get_air_quality_grade v (pollutant_name p)) = "red"%string
   <-> v = NaN \/ get_air_quality_grade v (pollutant_name p) = VeryBad) /\
  (get_grade_color (get_air_quality_grade v (pollutant_name p))
   = "#808080"%string <-> v = NaN) /\
  In (get_air_quality_grade v (pollutant_name p),
      marker_color (get_air_quality_grade v (pollutant_name p)),
      get_grade_color (get_air_quality_grade v (pollutant_name p)))
     [ (Good, "blue", "#0066cc"); (Moderate, "green", "#00cc00");
       (Bad, "orange", "#ff9900"); (VeryBad, "red", "#ff0000");
       (NoData, "red", "#808080") ]%string /\
  (forall g : string,
      ~ In g [Good; Moderate; Bad; VeryBad; NoData] ->
      get_grade_color g = "#808080"%string /\ marker_color g = "red"%string).
Proof.
  split; [| split; [| split]].
  - destruct (grade_cases v (pollutant_name p)) as [[-> ->] | [N I]].
    + split; [now left | reflexivity].
    + simpl in I.
      destruct I as [<- | [<- | [<- | [<- | []]]]]; simpl;
        (split; [try discriminate; now right
                | intros [? | ?]; [contradiction | try discriminate;
                                                   reflexivity]]).
  - destruct (grade_cases v (pollutant_name p)) as [[-> ->] | [N I]].
    + split; reflexivity.
    + simpl in I.
      destruct I as [<- | [<- | [<- | [<- | []]]]]; simpl;
        (split; [discriminate | contradiction]).
  - destruct (grade_cases v (pollutant_name p)) as [[-> ->] | [N I]].
    + simpl. auto 10.
    + simpl in I.
      destruct I as [<- | [<- | [<- | [<- | []]]]]; simpl; auto 10.
  - intros g N. simpl in N. unfold get_grade_color, marker_color. simpl.
    destruct (String.eqb_spec g Good); [exfalso; apply N; subst; auto 10 |].
    destruct (String.eqb_spec g Moderate); [exfalso; apply N; subst; auto 10 |].
    destruct (String.eqb_spec g Bad); [exfalso; apply N; subst; auto 10 |].
    destruct (String.eqb_spec g VeryBad); [exfalso; apply N; subst; auto 10 |].
    destruct (String.eqb_spec g NoData); [exfalso; apply N; subst; auto 10 |].
    split; reflexivity.
Qed.

End MapFacts.

(* ================================================================== *)
(** ** Date range *)

Lemma ts_min_NaT (col : list Timestamp) :
  ts_min col = NaT -> forall t, In t col -> t = NaT.
Proof.
  induction col as [| a col IH]; simpl; [easy |].
  intros H t [<- | I].
  - destruct a as [| x]; trivial.
    destruct (ts_min col) as [| y]; simpl in H; try discriminate.
    destruct (dt_leb x y); discriminate.
  - apply IH; trivial.
    destruct a as [| x]; trivial.
    destruct (ts_min col) as [| y]; trivial; simpl in H.
    destruct (dt_leb x y); discriminate.
Qed.

Lemma ts_min_TS (col : list Timestamp) (m : datetime) :
  ts_min col = TS m ->
  In (TS m) col /\ forall t, In (TS t) col -> dt_leb m t = true.
Proof.
  revert m. induction col as [| a col IH]; simpl; [easy |].
  intros m H.
  destruct a as [| x].
  - simpl in H. destruct (IH m H) as [I U]. split; auto.
    intros t [E | I']; [discriminate | auto].
  - destruct (ts_min col) as [| y] eqn:E; simpl in H.
    + injection H as <-. split; auto.
      intros t [E' | I'].
      * injection E' as <-. apply dt_leb_refl.
      * pose proof (ts_min_NaT col E (TS t) I'). discriminate.
    + destruct (IH y eq_refl) as [I U].
      destruct (dt_leb x y) eqn:L; injection H as ->.
      * split; auto. intros t [E' | I'].
        -- injection E' as <-. apply dt_leb_refl.
        -- apply dt_leb_trans with y; auto.
      * split; auto. intros t [E' | I']; auto.
        injection E' as ->.
        destruct (dt_leb_total t m); congruence.
Qed.

(** The order of instants refines the order of their dates. *)
Lemma dt_leb_date (a b : datetime) :
  dt_leb a b = true -> date_leb (dt_date a) (dt_date b) = true.
Proof.
  unfold dt_leb, date_leb, dt_compare, dt_key, dt_date. simpl.
  destruct (dt_year a ?= dt_year b)%Z; trivial.
  destruct (dt_month a ?= dt_month b)%Z; trivial.
  destruct (dt_day a ?= dt_day b)%Z; trivial.
Qed.

Lemma date_leb_trans (a b c : date) :
  date_leb a b = true -> date_leb b c = true -> date_leb a c = true.
Proof.
  unfold date_leb. intros H1 H2.
  pose proof (lex_compare_trans [d_year a; d_month a; d_day a]
                                [d_year b; d_month b; d_day b]
                                [d_year c; d_month c; d_day c]) as T.
  destruct (lex_compare [d_year a; d_month a; d_day a]
                        [d_year b; d_month b; d_day b]),
           (lex_compare [d_year b; d_month b; d_day b]
                        [d_year c; d_month c; d_day c]),
           (lex_compare [d_year a; d_month a; d_day a]
                        [d_year c; d_month c; d_day c]);
    try discriminate; try reflexivity; exfalso; apply T; easy.
Qed.

Lemma filter_all (A : Type) (keep : A -> bool) (rows : list A) :
  (forall x, In x rows -> keep x = true) -> filter keep rows = rows.
Proof.
  intro H. induction rows as [| x rows IH]; simpl; trivial.
  rewrite (H x (or_introl eq_refl)). f_equal. apply IH.
  intros b I. apply H. now right.
Qed.

(** The range that the date widget starts with.  On a view that has rows,
    all with an instant, there are an earliest and a latest instant among
    the instants of the view, and the range is exactly the pair of the
    calendar date of the earliest and the calendar date of the latest, in
    that order; every row is dated within it, and with it the table of the
    fourth tab is the whole view.  A view without an instant has no such
    range. *)
Theorem default_date_range_spec (view : DataFrame) :
  (view <> [] ->
   (forall r, In r view -> timestamp r <> NaT) ->
   exists earliest latest,
     (exists r, In r view /\ timestamp r = TS earliest) /\
     (exists r, In r view /\ timestamp r = TS latest) /\
     (forall r t, In r view -> timestamp r = TS t ->
                  dt_leb earliest t = true /\ dt_leb t latest = true) /\
     default_date_range view
     = Some [ mkdate (dt_year earliest) (dt_month earliest) (dt_day earliest);
              mkdate (dt_year latest) (dt_month latest) (dt_day latest) ] /\
     date_le
       (mkdate (dt_year earliest) (dt_month earliest) (dt_day earliest))
       (mkdate (dt_year latest) (dt_month latest) (dt_day latest)) /\
     (forall r, In r view ->
        dated_within
          (mkdate (dt_year earliest) (dt_month earliest) (dt_day earliest))
          (mkdate (dt_year latest) (dt_month latest) (dt_day latest)) r) /\
     date_filtered view
       [ mkdate (dt_year earliest) (dt_month earliest) (dt_day earliest);
         mkdate (dt_year latest) (dt_month latest) (dt_day latest) ]
     = Return view) /\
  ((forall r, In r view -> timestamp r = NaT) ->
   default_date_range view = None).
Proof.
  split.
  - intros N V.
    destruct view as [| r0 view']; [contradiction |].
    set (view := r0 :: view') in *.
    assert (I0 : In (timestamp r0) (map timestamp view)) by now left.
    destruct (ts_min (map timestamp view)) as [| lo] eqn:Lo.
    { exfalso. apply (V r0); [now left |]. now apply (ts_min_NaT _ Lo). }
    destruct (ts_max (map timestamp view)) as [| hi] eqn:Hi.
    { exfalso. apply (V r0); [now left |]. now apply (ts_max_NaT _ Hi). }
    destruct (ts_min_TS _ lo Lo) as [Ilo Ulo].
    destruct (ts_max_TS _ hi Hi) as [Ihi Uhi].
    assert (B : forall r t, In r view -> timestamp r = TS t ->
                            dt_leb lo t = true /\ dt_leb t hi = true).
    { intros r t I T. split; [apply Ulo | apply Uhi];
        rewrite <- T; now apply in_map. }
    assert (R : forall r, In r view ->
                  in_range (dt_date lo) (dt_date hi) r = true).
    { intros r I. unfold in_range.
      destruct (timestamp r) as [| t] eqn:T; [now apply V in I |].
      simpl. destruct (B r t I T).
      apply andb_true_iff. split; now apply dt_leb_date. }
    exists lo, hi. fold (dt_date lo). fold (dt_date hi).
    split.
    { apply in_map_iff in Ilo. destruct Ilo as (r & T & I). now exists r. }
    split.
    { apply in_map_iff in Ihi. destruct Ihi as (r & T & I). now exists r. }
    split; [exact B |]. split; [| split; [| split]].
    + unfold default_date_range. now rewrite Lo, Hi.
    + apply date_leb_le, dt_leb_date. now apply Ulo.
    + intros r I. apply in_range_dated. now apply R.
    + change (date_filtered view [dt_date lo; dt_date hi])
        with (Return (filter (in_range (dt_date lo) (dt_date hi)) view)).
      now rewrite (filter_all row _ view R).
  - intro H. unfold default_date_range.
    destruct (ts_min (map timestamp view)) as [| lo] eqn:Lo; trivial.
    destruct (ts_min_TS _ lo Lo) as [I _].
    apply in_map_iff in I. destruct I as (r & T & I).
    rewrite (H r I) in T. discriminate.
Qed.

(** The date filter indexes the tuple the widget returned at 0 and 1: it
    raises IndexError exactly on a tuple of fewer than two dates (any
    further entry is ignored), keeps the rows dated from the first to the
    second date inclusive, and keeps no row when the two are in the wrong
    order. *)
Theorem date_filtered_spec (view : DataFrame) :
  (forall date_range,
      date_filtered view date_range = Raise IndexError <->
      (List.length date_range < 2)%nat) /\
  (forall first last rest,
      date_filtered view (first :: last :: rest)
      = Return (filter (in_range first last) view)) /\
  (forall first last r,
      In r (filter (in_range first last) view) <->
      In r view /\
      exists t, timestamp r = TS t /\
                date_leb first (dt_date t) = true /\
                date_leb (dt_date t) last = true) /\
  (forall first last rest,
      date_leb first last = false ->
      date_filtered view (first :: last :: rest) = Return []).
Proof.
  split; [| split; [| split]].
  - intros [| a [| b rest]]; simpl; split; trivial; try lia; discriminate.
  - reflexivity.
  - intros first last r. rewrite filter_In.
    now rewrite SummaryFacts.in_range_spec.
  - intros first last rest H.
    change (date_filtered view (first :: last :: rest))
      with (Return (filter (in_range first last) view)).
    rewrite (filter_none row (in_range first last) view); trivial.
    intro r. unfold in_range.
    destruct (ts_date (timestamp r)) as [d |]; trivial.
    destruct (date_leb first d) eqn:A, (date_leb d last) eqn:B; trivial.
    rewrite (date_leb_trans first d last A B) in H. discriminate.
Qed.

(* ================================================================== *)
(** ** What the loader keeps *)

Lemma filter_none_in (A : Type) (keep : A -> bool) (rows : list A) :
  (forall x, In x rows -> keep x = false) -> filter keep rows = [].
Proof.
  intro H. induction rows as [| x rows IH]; simpl; trivial.
  rewrite (H x (or_introl eq_refl)). apply IH.
  intros b I. apply H. now right.
Qed.

Section LoaderRows.

Variable read_csv : string -> option (list csv_row).
Variable to_datetime : list (option string) -> option string -> Timestamp.

Lemma readable_unreadable_length (files : list (string * string)) :
  (List.length (readable read_csv files)
   + List.length (unreadable read_csv files) = List.length files)%nat.
Proof.
  induction files as [| [period file] rest IH]; simpl; trivial.
  destruct (read_csv file); simpl; lia.
Qed.

(** The loader neither invents nor alters a measurement.  The table holds,
    in the order of the sources, one row for each source row whose 일시
    parses, with that instant and with the district and the two readings
    of the source row unchanged; it holds nothing else, so it is no longer
    than the sources together.  Every configured file is either loaded or
    reported, never both. *)
Theorem load_from_rows (files : list (string * string)) :
  map (fun r => (timestamp r, district r, pm10 r, pm25 r))
      (fst (load_from read_csv to_datetime files))
  = map (fun c => (parsed read_csv to_datetime files c,
                   csv_district c, csv_pm10 c, csv_pm25 c))
        (filter (fun c => negb (isnat (parsed read_csv to_datetime files c)))
                (source_rows read_csv files)) /\
  (List.length (fst (load_from read_csv to_datetime files))
   <= List.length (source_rows read_csv files))%nat /\
  (List.length (readable read_csv files)
   + List.length (snd (load_from read_csv to_datetime files))
   = List.length files)%nat.
Proof.
  rewrite load_from_rows_eq. split; [| split].
  - rewrite map_map. reflexivity.
  - rewrite length_map. apply filter_length_le.
  - rewrite load_from_eq. simpl. rewrite length_map.
    apply readable_unreadable_length.
Qed.

(** When the program stops with "데이터를 불러올 수 없습니다" (lines 97-99):
    the loaded table is empty exactly when no row of a readable source has
    a 일시 that parses, be it that no source is readable, that the readable
    ones have no row, or that none of their instants parses. *)
Theorem load_from_empty_iff (files : list (string * string)) :
  empty (fst (load_from read_csv to_datetime files)) = true <->
  forall c, In c (source_rows read_csv files) ->
            parsed read_csv to_datetime files c = NaT.
Proof.
  rewrite load_from_rows_eq. split.
  - intros E c I.
    destruct (parsed read_csv to_datetime files c) as [| t] eqn:P; trivial.
    exfalso.
    assert (X : In c (filter
                        (fun c => negb (isnat (parsed read_csv to_datetime
                                                      files c)))
                        (source_rows read_csv files)))
      by (apply filter_In; split; trivial; now rewrite P).
    destruct (filter _ (source_rows read_csv files));
      [contradiction | discriminate].
  - intro H. rewrite filter_none_in; trivial.
    intros c I. now rewrite (H c I).
Qed.

End LoaderRows.

(* ================================================================== *)
(** ** Favourites *)

Lemma isin_false (s : string) (l : list string) :
  isin s l = false <-> ~ In s l.
Proof.
  rewrite <- isin_In. destruct (isin s l); split; intro H;
    trivial; try discriminate.
  exfalso. now apply H.
Qed.

(** [list.remove] on a member: the first occurrence goes, the others stay. *)
Lemma list_remove_member (x : string) (l : list string) :
  In x l ->
  exists l1 l2, l = l1 ++ x :: l2 /\ ~ In x l1 /\
                list_remove x l = Some (l1 ++ l2).
Proof.
  induction l as [| y t IH]; [easy |]. intro I. simpl.
  destruct (String.eqb_spec y x) as [-> | N].
  - exists [], t. repeat split. easy.
  - destruct I as [E | I]; [contradiction |].
    destruct (IH I) as (l1 & l2 & -> & N1 & ->).
    exists (y :: l1), l2. repeat split.
    intros [E | I1]; [contradiction | now apply N1].
Qed.

Lemma list_remove_absent (x : string) (l : list string) :
  ~ In x l -> list_remove x l = None.
Proof.
  induction l as [| y t IH]; simpl; trivial. intro N.
  destruct (String.eqb_spec y x) as [-> | _]; [exfalso; auto |].
  rewrite IH; auto.
Qed.

Lemma add_favorite_In (d x : string) (favorites : list string) :
  In x (add_favorite d favorites) <-> x = d \/ In x favorites.
Proof.
  unfold add_favorite. destruct (isin d favorites) eqn:E.
  - apply isin_In in E. split; [auto | intros [-> | I]; trivial].
  - rewrite in_app_iff. simpl. intuition.
Qed.

Lemma add_favorite_NoDup (d : string) (favorites : list string) :
  NoDup favorites -> NoDup (add_favorite d favorites).
Proof.
  intro N. unfold add_favorite. destruct (isin d favorites) eqn:E; trivial.
  apply isin_false in E.
  apply NoDup_rev in N. rewrite <- (rev_involutive (favorites ++ [d])).
  apply NoDup_rev. rewrite rev_app_distr. simpl. constructor; trivial.
  now rewrite <- in_rev.
Qed.

(** The list of favourites of a session never holds a district twice and
    only holds districts of the select box; so the keys [del_<district>] of
    the delete buttons are distinct, and [remove] behind a delete button
    finds its district and takes it off the list altogether. *)
Theorem favorites_invariant (districts favorites : list string) :
  session districts favorites ->
  NoDup favorites /\
  incl favorites districts /\
  forall d, In d favorites ->
    exists favorites',
      list_remove d favorites = Some favorites' /\
      session districts favorites' /\
      ~ In d favorites' /\
      (forall x, x <> d -> (In x favorites' <-> In x favorites)) /\
      S (List.length favorites') = List.length favorites.
Proof.
  intro Ses.
  assert (INV : NoDup favorites /\ incl favorites districts).
  { induction Ses as [| favs favs' Ses IH C].
    - split; [constructor | intros x []].
    - destruct IH as [N I]. destruct C as [d Id | d favs' Id R].
      + split; [now apply add_favorite_NoDup |].
        intros x Ix. apply add_favorite_In in Ix.
        destruct Ix as [-> | Ix]; auto.
      + destruct (list_remove_member d favs Id) as (l1 & l2 & E & N1 & R').
        rewrite R' in R. injection R as <-. subst favs.
        split.
        * now apply NoDup_remove_1 in N.
        * intros x Ix. apply I. apply in_app_iff in Ix.
          apply in_app_iff. simpl. tauto. }
  destruct INV as [N I]. split; trivial. split; trivial.
  intros d Id.
  destruct (list_remove_member d favorites Id) as (l1 & l2 & E & N1 & R).
  exists (l1 ++ l2). split; trivial. split.
  - eapply session_click; [exact Ses |].
    eapply click_delete; eauto.
  - subst favorites. split; [now apply NoDup_remove_2 in N |]. split.
    + intros x X. rewrite !in_app_iff. simpl. intuition congruence.
    + rewrite !length_app. simpl. lia.
Qed.

(** Adding a district.  The district is on the list afterwards, once;
    adding it again changes nothing; and adding a district that was not
    listed and deleting it gives the list back as it was.  [remove] of a
    district that is not listed would raise. *)
Theorem add_favorite_spec (d : string) (favorites : list string) :
  In d (add_favorite d favorites) /\
  add_favorite d (add_favorite d favorites) = add_favorite d favorites /\
  (In d favorites -> add_favorite d favorites = favorites) /\
  (~ In d favorites ->
   add_favorite d favorites = favorites ++ [d] /\
   list_remove d (add_favorite d favorites) = Some favorites /\
   list_remove d favorites = None).
Proof.
  assert (A : In d (add_favorite d favorites))
    by (apply add_favorite_In; now left).
  split; trivial. split; [| split].
  - unfold add_favorite at 1. now rewrite (proj2 (isin_In _ _) A).
  - intro I. unfold add_favorite. now rewrite (proj2 (isin_In _ _) I).
  - intro N. unfold add_favorite.
    rewrite (proj2 (isin_false _ _) N). split; trivial. split.
    + destruct (list_remove_member d (favorites ++ [d]))
        as (l1 & l2 & E & N1 & ->); [apply in_app_iff; simpl; auto |].
      f_equal.
      assert (L : l2 = []).
      { destruct l2 as [| z l2] using rev_ind; trivial.
        rewrite app_comm_cons, app_assoc in E.
        apply app_inj_tail in E. destruct E as [E _]. exfalso.
        apply N. rewrite E. apply in_app_iff. simpl. auto. }
      subst l2. rewrite app_nil_r.
      apply app_inj_tail in E. destruct E as [E _]. now symmetry.
    + now apply list_remove_absent.
Qed.

(* ================================================================== *)
(** ** Views of views *)

Lemma isin_filter (d : string) (ds ds' : list string) :
  isin d (filter (fun x => isin x ds') ds) = isin d ds && isin d ds'.
Proof.
  apply eq_true_iff_eq.
  rewrite andb_true_iff, !isin_In, filter_In, isin_In. reflexivity.
Qed.

(** How the filter composes.  The district list counts as a set: lists
    with the same members give the same view.  Filtering a view again for
    the same year narrows it to the districts of both selections, so
    repeating a filter changes nothing; filtering it for another year
    leaves no row; and the view of a table put together from two parts is
    the view of the first part followed by the view of the second. *)
Theorem filtered_data_compose (data : DataFrame) (y : Z) (ds : list string) :
  (forall ds', (forall d, In d ds <-> In d ds') ->
               filtered_data data y ds = filtered_data data y ds') /\
  (forall ds', filtered_data (filtered_data data y ds) y ds'
               = filtered_data data y (filter (fun d => isin d ds') ds)) /\
  filtered_data (filtered_data data y ds) y ds = filtered_data data y ds /\
  (forall y' ds', y' <> y ->
                  filtered_data (filtered_data data y ds) y' ds' = []) /\
  (forall more, filtered_data (data ++ more) y ds
                = filtered_data data y ds ++ filtered_data more y ds).
Proof.
  unfold filtered_data. split; [| split; [| split; [| split]]].
  - intros ds' H. apply filter_ext_eq. intro r. f_equal.
    apply eq_true_iff_eq. now rewrite !isin_In.
  - intro ds'. rewrite filter_filter. apply filter_ext_eq. intro r.
    rewrite isin_filter.
    destruct (year_is y r), (isin (district r) ds), (isin (district r) ds');
      reflexivity.
  - rewrite filter_filter. apply filter_ext_eq. intro r.
    destruct (year_is y r), (isin (district r) ds); reflexivity.
  - intros y' ds' N. rewrite filter_filter. apply filter_none. intro r.
    destruct (year_is y r) eqn:A; trivial.
    destruct (year_is y' r) eqn:B; [| now rewrite andb_false_r].
    apply year_is_spec in A. apply year_is_spec in B. congruence.
  - intro more. apply filter_app.
Qed.

(** From the loaded table to the status block.  On a table whose rows
    carry the calendar fields of their instant, a view that is not empty
    has a latest snapshot that is not empty; the rows of the snapshot
    share one instant, which is of the selected year, and belong to
    selected districts. *)
Theorem latest_of_filtered (data : DataFrame) (y : Z) (ds : list string) :
  (forall r, In r data -> consistent r) ->
  filtered_data data y ds <> [] ->
  exists t,
    dt_year t = y /\
    ts_max (map timestamp (filtered_data data y ds)) = TS t /\
    latest_data (filtered_data data y ds) <> [] /\
    forall r, In r (latest_data (filtered_data data y ds)) ->
              timestamp r = TS t /\ year r = Some y /\ In (district r) ds /\
              In r data.
Proof.
  intros C N.
  set (view := filtered_data data y ds) in *.
  assert (V : forall r, In r view ->
                In r data /\ year r = Some y /\ In (district r) ds /\
                exists t, timestamp r = TS t /\ dt_year t = y).
  { intros r I. unfold view, filtered_data in I. apply filter_In in I.
    destruct I as [I K]. apply andb_true_iff in K. destruct K as [K1 K2].
    apply year_is_spec in K1. apply isin_In in K2.
    repeat split; trivial.
    destruct (C r I) as (t & T & Y & _). exists t. split; trivial.
    congruence. }
  destruct view as [| r0 rest] eqn:E; [contradiction |].
  rewrite <- E in *.
  assert (I0 : In r0 view) by (rewrite E; now left).
  destruct (ts_max (map timestamp view)) as [| m] eqn:M.
  { destruct (V r0 I0) as (_ & _ & _ & t & T & _).
    pose proof (ts_max_NaT _ M (timestamp r0) (in_map timestamp _ _ I0)).
    congruence. }
  destruct (ts_max_TS _ m M) as [Im _].
  apply in_map_iff in Im. destruct Im as (rm & Tm & Irm).
  exists m. split; [| split; [reflexivity | split]].
  - destruct (V rm Irm) as (_ & _ & _ & t & T & Y). congruence.
  - intro X. assert (In rm (latest_data view)) as L.
    { unfold latest_data. apply filter_In. split; trivial.
      rewrite M, Tm. simpl. now apply dt_eqb_eq. }
    rewrite X in L. contradiction.
  - intros r I.
    destruct (StatusFacts.latest_timestamp view r I) as [T _].
    rewrite M in T. split; trivial.
    unfold latest_data in I. apply filter_In in I. destruct I as [I _].
    destruct (V r I) as (Id & Y & D & _). auto.
Qed.

(* ================================================================== *)
(** ** More scenarios *)

(** After one click on "추가" the list holds 중구 once, a district of the
    select box. *)
Lemma favorites_invariant_witness :
  NoDup (add_favorite "중구" []) /\
  incl (add_favorite "중구" []) ["강남구"; "중구"]%string.
Proof.
  assert (Ses : session ["강남구"; "중구"]%string (add_favorite "중구" [])).
  { eapply session_click; [apply session_start |].
    apply click_add. simpl. auto. }
  destruct (favorites_invariant _ _ Ses) as (N & I & _).
  split; assumption.
Defined.

(** The view of 강남구 in 2022 has its latest snapshot at 11h. *)
Lemma latest_of_filtered_witness :
  exists t,
    dt_year t = 2022%Z /\
    ts_max (map timestamp
              (filtered_data Scenario.two_districts 2022 ["강남구"%string]))
    = TS t /\
    latest_data (filtered_data Scenario.two_districts 2022 ["강남구"%string])
    <> [].
Proof.
  destruct (latest_of_filtered Scenario.two_districts 2022 ["강남구"%string])
    as (t & Y & M & N & _).
  - intros r I. simpl in I.
    destruct I as [<- | [<- | [<- | [<- | []]]]]; eexists; repeat split.
  - discriminate.
  - exists t. repeat split; assumption.
Defined.

(** On the map, 중구 without a PM2.5 reading is drawn red, like a district
    graded Very Bad; a district without coordinates gets no marker. *)
Example marker_without_reading :
  map (fun m => (mk_district m, mk_avg m, mk_grade m, mk_color m))
      (markers Scenario.two_districts PM25 ["중구"; "세종시"; "강남구"]%string)
  = [ ("중구", NaN, Grade.NoData, "red");
      ("강남구", Num (22 # 2), Grade.Good, "blue") ]%string.
Proof. reflexivity. Qed.

(** The status block on the two districts: the snapshot of 11h has one
    reading, that of 강남구. *)
Example status_of_two_districts :
  exists st,
    current_status Scenario.two_districts PM10 = Return (Some st) /\
    max_district st = "강남구"%string /\ min_district st = "강남구"%string /\
    avg_grade st = Grade.Moderate /\
    measured_at st = TS (Scenario.at_hour 11).
Proof. eexists. repeat split. Qed.
